(** * Vault fee derivation (src/api/vaults/getVaultFees.ts)

    A shallow embedding of the fee classifier, the fee-batch registry and the
    cache reader of [getVaultFees.ts].  JavaScript numbers are IEEE-754
    binary64 values, so they are modelled by Rocq's primitive floats, whose
    operations are the same correctly rounded binary64 operations. *)

From Stdlib Require Import ZArith NArith List Bool Floats Ascii String.
From stdpp Require Import gmap strings.

Set Warnings "-inexact-float".
Local Open Scope string_scope.

(** ** JavaScript values used by the module *)

Module Js.

(** A property of type [number | undefined]. *)
Inductive value : Set :=
| undefined : value
| Num : float -> value.

(** [ToNumber]: [undefined] converts to [NaN]; it is applied wherever a
    value is an operand of [+], [*] or [/]. *)
Definition ToNumber (v : value) : float :=
  match v with
  | undefined => nan
  | Num f => f
  end.

(** [a ?? b] *)
Definition nullish (a b : value) : value :=
  match a with
  | undefined => b
  | Num _ => a
  end.

(** [x === v] for a number [x]: false when [v] is [undefined], IEEE
    equality otherwise (so [NaN === NaN] is false). *)
Definition strict_eq (x : float) (v : value) : bool :=
  match v with
  | undefined => false
  | Num f => PrimFloat.eqb x f
  end.

Definition isNaN (x : float) : bool := PrimFloat.is_nan x.

(** [v === undefined] *)
Definition is_undefined (v : value) : bool :=
  match v with
  | undefined => true
  | Num _ => false
  end.

(** Truthiness of a [boolean | undefined] property. *)
Definition truthy (b : option bool) : bool :=
  match b with
  | Some true => true
  | _ => false
  end.

(** [s.includes(search)]: [search] occurs in [s] as a substring. *)
Fixpoint includes (s search : string) : bool :=
  if String.prefix search s then true
  else match s with
       | EmptyString => false
       | String _ rest => includes rest search
       end.

Definition lower_ascii (c : ascii) : ascii :=
  let n := N_of_ascii c in
  if ((65 <=? n) && (n <=? 90))%N then ascii_of_N (n + 32) else c.

(** [s.toLowerCase()] on the Latin letters; strategy addresses are
    hexadecimal text, and no character outside A-Z lower-cases to a
    hexadecimal digit or to x. *)
Fixpoint toLowerCase (s : string) : string :=
  match s with
  | EmptyString => EmptyString
  | String c rest => String (lower_ascii c) (toLowerCase rest)
  end.

(** [list.includes(s)] on an array of strings. *)
Definition array_includes (l : list string) (s : string) : bool :=
  existsb (String.eqb s) l.

End Js.

Coercion Js.ToNumber : Js.value >-> float.
Notation "a ?? b" := (Js.nullish a b) (at level 60, right associativity).
Notation "x === v" := (Js.strict_eq x v) (at level 65, no associativity).

(** ** bignumber.js values

    Every [BigNumber] of this module is built from the hexadecimal word of
    a [uint256] return value, so it is a natural number. *)

Module BigNumber.

Definition t : Set := N.

(** The binary64 value nearest to [a / b] (ties to even), for [0 <= a]
    and [0 < b]. *)
Definition nearest (a b : Z) : float :=
  match a with
  | Z0 => 0%float
  | Zpos _ =>
      let '(q, e, l) := SFdiv_core_binary prec emax a 0 b 0 in
      SF2Prim (binary_round_aux prec emax false q e l)
  | Zneg _ => nan
  end.

(** [x.toNumber()] *)
Definition toNumber (x : t) : float :=
  SF2Prim (binary_normalize prec emax (Z.of_N x) 0 false).

(** [x.div(1e9).toNumber()]: the quotient has at most nine decimals, so
    [div] is exact (DECIMAL_PLACES is 20) and [toNumber] rounds it once. *)
Definition div1e9_toNumber (x : t) : float :=
  nearest (Z.of_N x) (10 ^ 9).

End BigNumber.

(** ** Data model *)

Module PerformanceFee.
Record t : Set := mk {
  total : float;
  call : float;
  strategist : float;
  treasury : float;
  stakers : float;
}.
End PerformanceFee.

Module VaultFeeBreakdown.
Record t : Set := mk {
  performance : PerformanceFee.t;
  withdraw : float;
  deposit : option float;   (* [deposit?: number] *)
  lastUpdated : Z;
}.
End VaultFeeBreakdown.

Module FeeBatchDetail.
Record t : Set := mk {
  address : string;
  treasurySplit : float;
  stakerSplit : float;
}.
End FeeBatchDetail.

Module PerformanceFeeCallResponse.
Record t : Set := mk {
  total : BigNumber.t;
  beefy : BigNumber.t;
  strategist : BigNumber.t;
  call : BigNumber.t;
}.
End PerformanceFeeCallResponse.

Module AllFees.
Record t : Set := mk {
  performance : PerformanceFeeCallResponse.t;
  withdraw : BigNumber.t;
  deposit : BigNumber.t;
}.
End AllFees.

Module StrategyCallResponse.
Record t : Set := mk {
  id : string;
  strategy : string;
  strategist : Js.value;
  strategist2 : Js.value;
  call : Js.value;
  call2 : Js.value;
  call3 : Js.value;
  call4 : Js.value;
  maxCallFee : Js.value;
  beefy : Js.value;
  fee : Js.value;
  treasury : Js.value;
  rewards : Js.value;
  rewards2 : Js.value;
  breakdown : option PerformanceFeeCallResponse.t;
  allFees : option AllFees.t;
  maxFee : Js.value;
  maxFee2 : Js.value;
  maxFee3 : Js.value;
  withdraw : Js.value;
  withdraw2 : Js.value;
  withdrawMax : Js.value;
  withdrawMax2 : Js.value;
  paused : option bool;
}.
End StrategyCallResponse.

Import StrategyCallResponse.

(** ** The classifier *)

Section Classifier.
Local Open Scope float_scope.

Definition depositFeeFromCalls (contractCalls : StrategyCallResponse.t)
  : option float :=
  match allFees contractCalls with
  | Some fees => Some (BigNumber.toNumber (AllFees.deposit fees) / 10000)
  | None => None
  end.

(** The result is a JavaScript value; [None] stands for [undefined]. *)
Definition withdrawalFeeFromCalls (contractCalls : StrategyCallResponse.t)
  : option float :=
  match allFees contractCalls with
  | Some fees => Some (BigNumber.toNumber (AllFees.withdraw fees) / 10000)
  | None =>
      if (Js.is_undefined (withdraw contractCalls)
          && Js.is_undefined (withdraw2 contractCalls))
         || (Js.is_undefined (withdrawMax contractCalls)
             && Js.is_undefined (withdrawMax2 contractCalls))
         || Js.truthy (paused contractCalls)
      then Some 0
      else
        let withdrawFee := withdraw contractCalls ?? withdraw2 contractCalls in
        let maxWithdrawFee :=
          withdrawMax contractCalls ?? withdrawMax2 contractCalls in
        Some (withdrawFee / maxWithdrawFee)
  end.

Definition performanceFromGetFees (fees : PerformanceFeeCallResponse.t)
    (feeBatch : FeeBatchDetail.t) : PerformanceFee.t :=
  let total :=
    BigNumber.div1e9_toNumber (PerformanceFeeCallResponse.total fees) / 1e9 in
  let beefy :=
    BigNumber.div1e9_toNumber (PerformanceFeeCallResponse.beefy fees) / 1e9 in
  let call :=
    BigNumber.div1e9_toNumber (PerformanceFeeCallResponse.call fees) / 1e9 in
  let strategist :=
    BigNumber.div1e9_toNumber (PerformanceFeeCallResponse.strategist fees) / 1e9 in
  let feeSum := beefy + call + strategist in
  let beefySplit := (total * beefy) / feeSum in
  {| PerformanceFee.total := total;
     PerformanceFee.call := (total * call) / feeSum;
     PerformanceFee.strategist := (total * strategist) / feeSum;
     PerformanceFee.treasury := FeeBatchDetail.treasurySplit feeBatch * beefySplit;
     PerformanceFee.stakers := FeeBatchDetail.stakerSplit feeBatch * beefySplit |}.

Definition legacyFeeMappings (contractCalls : StrategyCallResponse.t)
    (feeBatch : FeeBatchDetail.t) : option PerformanceFee.t :=
  let total := 0.045 in
  let callFee :=
    call contractCalls ?? call2 contractCalls ?? call3 contractCalls
      ?? call4 contractCalls in
  let strategistFee := strategist contractCalls ?? strategist2 contractCalls in
  let maxFee :=
    maxFee contractCalls ?? maxFee2 contractCalls ?? maxFee3 contractCalls in
  let beefyFee := beefy contractCalls in
  let fee := fee contractCalls in
  let treasury := treasury contractCalls in
  let rewards := rewards contractCalls ?? rewards2 contractCalls in
  let treasurySplit := FeeBatchDetail.treasurySplit feeBatch in
  let stakerSplit := FeeBatchDetail.stakerSplit feeBatch in
  if callFee + strategistFee + beefyFee === maxFee then
    Some {| PerformanceFee.total := total;
            PerformanceFee.call := (total * callFee) / maxFee;
            PerformanceFee.strategist := (total * strategistFee) / maxFee;
            PerformanceFee.treasury := (total * treasurySplit * beefyFee) / maxFee;
            PerformanceFee.stakers := (total * stakerSplit * beefyFee) / maxFee |}
  else if callFee + strategistFee + rewards + treasury === maxFee then
    Some {| PerformanceFee.total := total;
            PerformanceFee.call := (total * callFee) / maxFee;
            PerformanceFee.strategist := (total * strategistFee) / maxFee;
            PerformanceFee.treasury := (total * treasury) / maxFee;
            PerformanceFee.stakers := (total * rewards) / maxFee |}
  else if fee + callFee === maxFee then
    let total := 0.05 in
    Some {| PerformanceFee.total := total;
            PerformanceFee.call := (total * callFee) / maxFee;
            PerformanceFee.strategist := 0;
            PerformanceFee.treasury := 0;
            PerformanceFee.stakers := (total * fee) / maxFee |}
  else if negb (Js.isNaN (strategistFee + callFee + beefyFee)) then
    Some {| PerformanceFee.total := total;
            PerformanceFee.call := (total * callFee) / maxFee;
            PerformanceFee.strategist := (total * strategistFee) / maxFee;
            PerformanceFee.treasury := (total * treasurySplit * beefyFee) / maxFee;
            PerformanceFee.stakers := (total * stakerSplit * beefyFee) / maxFee |}
  else if negb (Js.isNaN (strategistFee + callFee + treasury)) then
    Some {| PerformanceFee.total := total;
            PerformanceFee.call := (total * callFee) / maxFee;
            PerformanceFee.strategist := (total * strategistFee) / maxFee;
            PerformanceFee.treasury := (total * treasury) / maxFee;
            PerformanceFee.stakers := 0 |}
  else if callFee + treasury + rewards === maxFee then
    Some {| PerformanceFee.total := total;
            PerformanceFee.call := (total * callFee) / maxFee;
            PerformanceFee.strategist := 0;
            PerformanceFee.treasury := (total * treasury) / maxFee;
            PerformanceFee.stakers := (total * rewards) / maxFee |}
  else if callFee + beefyFee === maxFee then
    let total :=
      if String.eqb (id contractCalls) "cake-cakev2-eol" then 0.01 else total in
    Some {| PerformanceFee.total := total;
            PerformanceFee.call := (total * callFee) / maxFee;
            PerformanceFee.strategist := 0;
            PerformanceFee.treasury := (total * treasurySplit * beefyFee) / maxFee;
            PerformanceFee.stakers := (total * stakerSplit * beefyFee) / maxFee |}
  else if callFee + fee === maxFee then
    Some {| PerformanceFee.total := total;
            PerformanceFee.call := (total * callFee) / maxFee;
            PerformanceFee.strategist := 0;
            PerformanceFee.treasury := 0;
            PerformanceFee.stakers := (total * fee) / maxFee |}
  else None.

Definition performanceForMaxi (contractCalls : StrategyCallResponse.t)
  : PerformanceFee.t :=
  let callFee :=
    call contractCalls ?? call2 contractCalls ?? call3 contractCalls
      ?? call4 contractCalls in
  let maxCallFee := maxCallFee contractCalls ?? Js.Num 1000 in
  let maxFee :=
    maxFee contractCalls ?? maxFee2 contractCalls ?? maxFee3 contractCalls in
  let rewards := rewards contractCalls ?? rewards2 contractCalls in
  let strategyAddress := Js.toLowerCase (strategy contractCalls) in
  if Js.array_includes
       [ Js.toLowerCase "0x436D5127F16fAC1F021733dda090b5E6DE30b3bB";
         Js.toLowerCase "0xa9E6E271b27b20F65394914f8784B3B860dBd259" ]
       strategyAddress
  then
    {| PerformanceFee.total := callFee / 1000;
       PerformanceFee.strategist := 0;
       PerformanceFee.call := callFee / 1000;
       PerformanceFee.treasury := 0;
       PerformanceFee.stakers := 0 |}
  else if Js.array_includes
            (map Js.toLowerCase
               [ "0x24AAaB9DA14308bAf9d670e2a37369FE8Cb5Fe36";
                 "0x22b3d90BDdC3Ad5F2948bE3914255C64Ebc8c9b3";
                 "0xbCF1e02ac0c45729dC85F290C4A6AB35c4801cB1";
                 "0xb25eB9105549627050AAB3A1c909fBD454014beA" ])
            strategyAddress
  then
    {| PerformanceFee.total := ((45 / 1000) * callFee) / maxFee;
       PerformanceFee.strategist := 0;
       PerformanceFee.call := ((45 / 1000) * callFee) / maxFee;
       PerformanceFee.treasury := 0;
       PerformanceFee.stakers := 0 |}
  else if String.eqb
            (Js.toLowerCase "0xca077eEC87e2621F5B09AFE47C42BAF88c6Af18c")
            strategyAddress
  then
    {| PerformanceFee.total := 5 / 1000;
       PerformanceFee.strategist := 0;
       PerformanceFee.call := 5 / 1000;
       PerformanceFee.treasury := 0;
       PerformanceFee.stakers := 0 |}
  else if String.eqb
            (Js.toLowerCase "0x87056F5E8Dce0fD71605E6E291C6a3B53cbc3818")
            strategyAddress
  then
    {| PerformanceFee.total := (callFee + rewards) / maxFee;
       PerformanceFee.strategist := 0;
       PerformanceFee.call := callFee / maxFee;
       PerformanceFee.treasury := 0;
       PerformanceFee.stakers := rewards / maxFee |}
  else
    {| PerformanceFee.total := callFee / maxCallFee;
       PerformanceFee.strategist := 0;
       PerformanceFee.call := callFee / maxCallFee;
       PerformanceFee.treasury := 0;
       PerformanceFee.stakers := 0 |}.

(** [None] stands for the [undefined] that [legacyFeeMappings] returns
    when no branch assigns [performanceFee]. *)
Definition performanceFeesFromCalls (contractCalls : StrategyCallResponse.t)
    (feeBatch : FeeBatchDetail.t) : option PerformanceFee.t :=
  match allFees contractCalls with
  | Some fees =>
      Some (performanceFromGetFees (AllFees.performance fees) feeBatch)
  | None =>
      match breakdown contractCalls with
      | Some fees => Some (performanceFromGetFees fees feeBatch)
      | None =>
          if Js.includes (id contractCalls) "-maxi"
          then Some (performanceForMaxi contractCalls)
          else legacyFeeMappings contractCalls feeBatch
      end
  end.

(** [now] is the value of [Date.now()] at the call; [feeBatch] is the
    fee batch of a chain that has one (for the call with
    [feeBatches[chain]] as it is, see [Throwing] below). *)
Definition mapStrategyCallsToFeeBreakdown (now : Z)
    (contractCalls : StrategyCallResponse.t) (feeBatch : FeeBatchDetail.t)
  : option VaultFeeBreakdown.t :=
  let withdrawFee := withdrawalFeeFromCalls contractCalls in
  let performanceFee := performanceFeesFromCalls contractCalls feeBatch in
  let depositFee := depositFeeFromCalls contractCalls in
  match withdrawFee with
  | None => None
  | Some withdrawFee =>
      match performanceFee with
      | None => None
      | Some performanceFee =>
          Some {| VaultFeeBreakdown.performance := performanceFee;
                  VaultFeeBreakdown.withdraw := withdrawFee;
                  VaultFeeBreakdown.deposit := depositFee;
                  VaultFeeBreakdown.lastUpdated := now |}
      end
  end.

End Classifier.

(** ** The fee-batch registry *)

Module FeeBatches.
Local Open Scope float_scope.

(** What [feeBatchContract.methods.treasuryFee().call()] settles to: the
    decimal string of the [uint256] it read, or an error with a message. *)
Inductive callResult : Set :=
| Resolved (numerator : N)
| Rejected (message : string).

(** The local [treasurySplit]: unassigned, the string returned by the
    call, or one of the numeric defaults. *)
Inductive split : Set :=
| Unassigned
| FromCall (numerator : N)
| Default (n : float).

(** [if (treasurySplit)]: a decimal string of a [uint256] is never empty,
    so it is truthy; a number is truthy unless it is zero or NaN. *)
Definition truthy (s : split) : bool :=
  match s with
  | Unassigned => false
  | FromCall _ => true
  | Default n => negb (PrimFloat.eqb n 0) && negb (Js.isNaN n)
  end.

(** [ToNumber], applied by [treasurySplit / 1000]. *)
Definition ToNumber (s : split) : float :=
  match s with
  | Unassigned => nan
  | FromCall n => BigNumber.toNumber n
  | Default n => n
  end.

Section Registry.
(** [ChainId.zksync] of the address book. *)
Variable zksync : Z.

(** The [try]/[catch] of one iteration. *)
Definition readTreasurySplit (chainId : Z) (res : callResult) : split :=
  match res with
  | Resolved n => FromCall n
  | Rejected message =>
      if Js.includes message "revert" || Js.includes message "correct ABI"
      then Default 140
      else if (chainId =? zksync)%Z
              && Js.includes message "cannot estimate gas"
      then Default 640
      else Unassigned
  end.

(** One iteration of the loop of [updateFeeBatches]. *)
Definition updateFeeBatch (feeBatches : gmap Z FeeBatchDetail.t)
    (chainId : Z) (feeBatchAddress : string) (res : callResult)
  : gmap Z FeeBatchDetail.t :=
  let treasurySplit := readTreasurySplit chainId res in
  if truthy treasurySplit then
    <[ chainId :=
         {| FeeBatchDetail.address := feeBatchAddress;
            FeeBatchDetail.treasurySplit := ToNumber treasurySplit / 1000;
            FeeBatchDetail.stakerSplit := 1 - ToNumber treasurySplit / 1000 |} ]>
      feeBatches
  else feeBatches.

(** The loop over the chains of the address book, each given with its
    fee-batch address and the outcome of its [treasuryFee] call. *)
Definition updateFeeBatches (book : list (Z * string * callResult))
    (feeBatches : gmap Z FeeBatchDetail.t) : gmap Z FeeBatchDetail.t :=
  fold_left
    (fun acc '(chainId, feeBatchAddress, res) =>
       updateFeeBatch acc chainId feeBatchAddress res)
    book feeBatches.

End Registry.
End FeeBatches.

(** ** Completions and plain objects

    An expression either yields a value or throws; the only exception of
    this module is the [TypeError] of reading a property of [undefined]. *)

Module Completion.

Inductive t (A : Type) : Type :=
| Normal (a : A)
| TypeError.
Arguments Normal {A} a.
Arguments TypeError {A}.

Definition bind {A B : Type} (m : t A) (f : A -> t B) : t B :=
  match m with
  | Normal a => f a
  | TypeError => TypeError
  end.

End Completion.

Notation "x <- m ;; k" := (Completion.bind m (fun x => k))
  (at level 100, m at next level, right associativity).

(** [vaultFees] is a plain object ([{}], or the object read back from the
    store) used as a map from vault ids to breakdowns.  Its own properties
    are the finite map; behind them [object[key]] also finds what every
    plain object inherits from [Object.prototype].  The object's prototype
    is taken to be the unchanged [Object.prototype]. *)

Module JsObject.

(** The property names of [Object.prototype]. *)
Definition inherited : list string :=
  [ "constructor"; "hasOwnProperty"; "isPrototypeOf"; "propertyIsEnumerable";
    "toLocaleString"; "toString"; "valueOf"; "__proto__";
    "__defineGetter__"; "__defineSetter__"; "__lookupGetter__";
    "__lookupSetter__" ].

(** What [object[key]] evaluates to. *)
Inductive property (A : Type) : Type :=
| Own (value : A)     (* the own property *)
| Inherited           (* a member of [Object.prototype]: a function, or
                         [Object.prototype] itself for "__proto__" *)
| Missing.            (* [undefined] *)
Arguments Own {A} value.
Arguments Inherited {A}.
Arguments Missing {A}.

Definition get {A : Type} (object : gmap string A) (key : string)
  : property A :=
  match object !! key with
  | Some value => Own value
  | None => if Js.array_includes inherited key then Inherited else Missing
  end.

End JsObject.

(** ** Reading the cache *)

(** An inherited member is truthy and has no [performance] property, so
    reading [.performance.total] off it throws. *)
Definition getTotalPerformanceFeeForVault
    (vaultFees : gmap string VaultFeeBreakdown.t) (vaultId : string)
  : Completion.t float :=
  match JsObject.get vaultFees vaultId with
  | JsObject.Missing => Completion.Normal 0.095%float
  | JsObject.Own fees =>
      Completion.Normal
        (PerformanceFee.total (VaultFeeBreakdown.performance fees))
  | JsObject.Inherited => Completion.TypeError
  end.

(** ** The legacy branches as an ordered list

    The locals of [legacyFeeMappings] and its [if]/[else if] chain, laid
    out as a list of tests with their results, in source order. *)

Module Legacy.
Local Open Scope float_scope.

Definition callFee (c : StrategyCallResponse.t) : Js.value :=
  call c ?? call2 c ?? call3 c ?? call4 c.
Definition strategistFee (c : StrategyCallResponse.t) : Js.value :=
  strategist c ?? strategist2 c.
Definition maxFee (c : StrategyCallResponse.t) : Js.value :=
  StrategyCallResponse.maxFee c ?? maxFee2 c ?? maxFee3 c.
Definition rewards (c : StrategyCallResponse.t) : Js.value :=
  StrategyCallResponse.rewards c ?? rewards2 c.

(** The result of the branches that split the [beefy] fee between
    treasury and stakers (first, fourth and seventh branch). *)
Definition beefyResult (total : float) (strategistFee : float)
    (c : StrategyCallResponse.t) (fb : FeeBatchDetail.t) : PerformanceFee.t :=
  {| PerformanceFee.total := total;
     PerformanceFee.call := (total * callFee c) / maxFee c;
     PerformanceFee.strategist := strategistFee;
     PerformanceFee.treasury :=
       (total * FeeBatchDetail.treasurySplit fb * beefy c) / maxFee c;
     PerformanceFee.stakers :=
       (total * FeeBatchDetail.stakerSplit fb * beefy c) / maxFee c |}.

(** The result of the branches that read treasury and stakers from the
    strategy (second, fifth and sixth branch). *)
Definition treasuryResult (strategistFee stakers : float)
    (c : StrategyCallResponse.t) : PerformanceFee.t :=
  {| PerformanceFee.total := 0.045;
     PerformanceFee.call := (0.045 * callFee c) / maxFee c;
     PerformanceFee.strategist := strategistFee;
     PerformanceFee.treasury := (0.045 * treasury c) / maxFee c;
     PerformanceFee.stakers := stakers |}.

(** The result of the branches built on [fee] (third and eighth branch). *)
Definition feeResult (total : float) (c : StrategyCallResponse.t)
  : PerformanceFee.t :=
  {| PerformanceFee.total := total;
     PerformanceFee.call := (total * callFee c) / maxFee c;
     PerformanceFee.strategist := 0;
     PerformanceFee.treasury := 0;
     PerformanceFee.stakers := (total * fee c) / maxFee c |}.

(** The component sum of each branch, in source order. *)
Definition sums (c : StrategyCallResponse.t) : list float :=
  [ callFee c + strategistFee c + beefy c;
    callFee c + strategistFee c + rewards c + treasury c;
    fee c + callFee c;
    strategistFee c + callFee c + beefy c;
    strategistFee c + callFee c + treasury c;
    callFee c + treasury c + rewards c;
    callFee c + beefy c;
    callFee c + fee c ].

(** The eight branches; [accept4] and [accept5] are the tests of the
    fourth and fifth one, given the component sum and the max fee. *)
Definition branchesWith (accept4 accept5 : float -> Js.value -> bool)
    (c : StrategyCallResponse.t) (fb : FeeBatchDetail.t)
  : list (bool * PerformanceFee.t) :=
  [ (callFee c + strategistFee c + beefy c === maxFee c,
     beefyResult 0.045 ((0.045 * strategistFee c) / maxFee c) c fb);
    (callFee c + strategistFee c + rewards c + treasury c === maxFee c,
     treasuryResult ((0.045 * strategistFee c) / maxFee c)
       ((0.045 * rewards c) / maxFee c) c);
    (fee c + callFee c === maxFee c, feeResult 0.05 c);
    (accept4 (strategistFee c + callFee c + beefy c) (maxFee c),
     beefyResult 0.045 ((0.045 * strategistFee c) / maxFee c) c fb);
    (accept5 (strategistFee c + callFee c + treasury c) (maxFee c),
     treasuryResult ((0.045 * strategistFee c) / maxFee c) 0 c);
    (callFee c + treasury c + rewards c === maxFee c,
     treasuryResult 0 ((0.045 * rewards c) / maxFee c) c);
    (callFee c + beefy c === maxFee c,
     beefyResult (if String.eqb (id c) "cake-cakev2-eol" then 0.01 else 0.045)
       0 c fb);
    (callFee c + fee c === maxFee c, feeResult 0.045 c) ].

(** The tests as the source has them: the fourth and fifth branch only
    ask that the sum is not NaN. *)
Definition branches : StrategyCallResponse.t -> FeeBatchDetail.t ->
                      list (bool * PerformanceFee.t) :=
  branchesWith (fun sum _ => negb (Js.isNaN sum))
               (fun sum _ => negb (Js.isNaN sum)).

(** The tests as the specification words them: every shape is accepted
    only when its component sum equals the max fee. *)
Definition shapesBySum : StrategyCallResponse.t -> FeeBatchDetail.t ->
                         list (bool * PerformanceFee.t) :=
  branchesWith Js.strict_eq Js.strict_eq.

(** First match wins. *)
Definition firstMatch (l : list (bool * PerformanceFee.t))
  : option PerformanceFee.t :=
  match find fst l with
  | Some (_, result) => Some result
  | None => None
  end.

End Legacy.

(** A probe of the legacy generation: neither getter responded and the
    vault id does not contain "-maxi". *)
Definition isLegacy (c : StrategyCallResponse.t) : Prop :=
  allFees c = None /\ breakdown c = None /\ Js.includes (id c) "-maxi" = false.

(** ** The split invariant

    [treasurySplit + stakerSplit == 1], evaluated in binary64 on the pair
    that [updateFeeBatches] stores for the numerator [n]. *)

Definition complementary (n : N) : bool :=
  let x := (BigNumber.toNumber n / 1000)%float in
  PrimFloat.eqb (x + (1 - x)) 1.

(** ** Sample probes and registries *)

Module Samples.
Local Open Scope float_scope.
Import Js.

(** A probe in which no accessor responded. *)
Definition silent (id strategy : string) : StrategyCallResponse.t :=
  {| id := id; strategy := strategy;
     strategist := undefined; strategist2 := undefined;
     call := undefined; call2 := undefined; call3 := undefined;
     call4 := undefined; maxCallFee := undefined; beefy := undefined;
     fee := undefined; treasury := undefined; rewards := undefined;
     rewards2 := undefined; breakdown := None; allFees := None;
     maxFee := undefined; maxFee2 := undefined; maxFee3 := undefined;
     withdraw := undefined; withdraw2 := undefined;
     withdrawMax := undefined; withdrawMax2 := undefined;
     paused := None |}.

(** A probe answered only by individually named accessors. *)
Definition legacy (id strategy : string)
    (call strategist beefy fee treasury rewards maxFee : Js.value)
    (withdraw withdrawMax : Js.value) (paused : option bool)
  : StrategyCallResponse.t :=
  {| id := id; strategy := strategy;
     strategist := strategist; strategist2 := undefined;
     call := call; call2 := undefined; call3 := undefined;
     call4 := undefined; maxCallFee := undefined; beefy := beefy;
     fee := fee; treasury := treasury; rewards := rewards;
     rewards2 := undefined; breakdown := None; allFees := None;
     maxFee := maxFee; maxFee2 := undefined; maxFee3 := undefined;
     withdraw := withdraw; withdraw2 := undefined;
     withdrawMax := withdrawMax; withdrawMax2 := undefined;
     paused := paused |}.

(** A probe answered by [getAllFees] (and by nothing else). *)
Definition aggregate (id strategy : string) (fees : AllFees.t)
  : StrategyCallResponse.t :=
  {| id := id; strategy := strategy;
     strategist := undefined; strategist2 := undefined;
     call := undefined; call2 := undefined; call3 := undefined;
     call4 := undefined; maxCallFee := undefined; beefy := undefined;
     fee := undefined; treasury := undefined; rewards := undefined;
     rewards2 := undefined; breakdown := None; allFees := Some fees;
     maxFee := undefined; maxFee2 := undefined; maxFee3 := undefined;
     withdraw := undefined; withdraw2 := undefined;
     withdrawMax := undefined; withdrawMax2 := undefined;
     paused := None |}.

(** [getAllFees] reporting a 9.5% total (0.5% call, 0.5% strategist, 8.5%
    beefy), a 1% deposit fee and a 0.1% withdrawal fee. *)
Definition fees95 : AllFees.t :=
  {| AllFees.performance :=
       {| PerformanceFeeCallResponse.total := (95 * 10 ^ 15)%N;
          PerformanceFeeCallResponse.beefy := (85 * 10 ^ 15)%N;
          PerformanceFeeCallResponse.strategist := (5 * 10 ^ 15)%N;
          PerformanceFeeCallResponse.call := (5 * 10 ^ 15)%N |};
     AllFees.withdraw := 10%N;
     AllFees.deposit := 100%N |}.

Definition split14 : FeeBatchDetail.t :=
  {| FeeBatchDetail.address := "0xfeebatch";
     FeeBatchDetail.treasurySplit := 0.14;
     FeeBatchDetail.stakerSplit := 0.86 |}.

(** A cached breakdown. *)
Definition cached : VaultFeeBreakdown.t :=
  {| VaultFeeBreakdown.performance :=
       {| PerformanceFee.total := 0.045;
          PerformanceFee.call := 0.00225;
          PerformanceFee.strategist := 0;
          PerformanceFee.treasury := 0.00252;
          PerformanceFee.stakers := 0.01548 |};
     VaultFeeBreakdown.withdraw := 0.001;
     VaultFeeBreakdown.deposit := None;
     VaultFeeBreakdown.lastUpdated := 1700000000000 |}.

Definition avaxMaxi : string := "0xca077eEC87e2621F5B09AFE47C42BAF88c6Af18c".

(** The avax maxi, its address in upper case, answered by every kind of
    individually named accessor. *)
Definition avaxMaxiProbe : StrategyCallResponse.t :=
  legacy "avax-bifi-maxi" "0xCA077EEC87E2621F5B09AFE47C42BAF88C6AF18C"
    (Num 1000) (Num 0) (Num 9000) (Num 30) (Num 4000) (Num 5000)
    (Num 10000) (Num 10) (Num 10000) (Some false).

End Samples.

(** ** Collecting a chain's fees (getChainFees) *)

Module ChainFees.

(** [MULTICALL_BATCH_SIZES], keyed by the chain's name. *)
Definition MULTICALL_BATCH_SIZES (chain : string) : option nat :=
  if String.eqb chain "polygon" then Some 25 else None.

Definition DEFAULT_MULTICALL_BATCH_SIZE : nat := 100.

Definition batchSizeForChain (chain : string) : nat :=
  match MULTICALL_BATCH_SIZES chain with
  | Some size => size
  | None => DEFAULT_MULTICALL_BATCH_SIZE
  end.

(** [array.slice(start, stop)] for [0 <= start]: the elements from
    [start] up to, not including, [stop], as far as the array goes. *)
Definition slice {A : Type} (l : list A) (start stop : nat) : list A :=
  firstn (stop - start) (skipn start l).

(** The loop [for (let i = 0; i < contractCallContext.length; i += batchSize)]
    from the index [i] on; [None] when [fuel] iterations were not enough
    to leave the loop. *)
Fixpoint batchesFrom {A : Type} (fuel : nat) (contractCallContext : list A)
    (batchSize i : nat) : option (list (list A)) :=
  if (i <? length contractCallContext)%nat then
    match fuel with
    | O => None
    | S fuel =>
        option_map (cons (slice contractCallContext i (i + batchSize)))
          (batchesFrom fuel contractCallContext batchSize (i + batchSize))
    end
  else Some [].

(** The batches passed to [multicall.call], one call per batch. *)
Definition batches {A : Type} (batchSize : nat) (contractCallContext : list A)
  : option (list (list A)) :=
  batchesFrom (length contractCallContext) contractCallContext batchSize 0.

(** An entry of the array that [Promise.allSettled] resolves to. *)
Inductive settled (A : Type) : Type :=
| fulfilled (value : A)
| rejected (reason : string).
Arguments fulfilled {A} value.
Arguments rejected {A} reason.

(** The [for ... of callResponses] loop of one fulfilled batch.  Each call
    response comes with the reading of [Date.now()] taken when it is
    mapped; the fee batch is present, as the signature has it (the loop
    with [feeBatches[chain]] as it is, which an exception can leave, is
    [Throwing.storeResponses] below). *)
Definition storeResponses (feeBatch : FeeBatchDetail.t)
    (vaultFees : gmap string VaultFeeBreakdown.t)
    (callResponses : list (Z * StrategyCallResponse.t))
  : gmap string VaultFeeBreakdown.t :=
  fold_left
    (fun acc '(now, contractCalls) =>
       match mapStrategyCallsToFeeBreakdown now contractCalls feeBatch with
       | Some fees => <[ id contractCalls := fees ]> acc
       | None => acc
       end)
    callResponses vaultFees.

(** [results.forEach]: a fulfilled batch, given by its mapped call
    responses, is stored; a rejected one is only logged. *)
Definition storeResults (feeBatch : FeeBatchDetail.t)
    (vaultFees : gmap string VaultFeeBreakdown.t)
    (results : list (settled (list (Z * StrategyCallResponse.t))))
  : gmap string VaultFeeBreakdown.t :=
  fold_left
    (fun acc res =>
       match res with
       | fulfilled callResponses => storeResponses feeBatch acc callResponses
       | rejected _ => acc
       end)
    results vaultFees.

(** The call responses of the fulfilled batches, in the order in which
    [results.forEach] goes through them. *)
Definition fulfilledResponses
    (results : list (settled (list (Z * StrategyCallResponse.t))))
  : list (Z * StrategyCallResponse.t) :=
  flat_map
    (fun res =>
       match res with
       | fulfilled callResponses => callResponses
       | rejected _ => []
       end)
    results.

End ChainFees.

(** ** The classifier as [getChainFees] calls it

    [updateVaultFees] passes [feeBatches[chain]], which is [undefined] for
    a chain without a registry entry.  The functions below are the ones
    above with that argument as it is: reading [feeBatch.treasurySplit] or
    [feeBatch.stakerSplit] off [undefined] throws a [TypeError].  An object
    literal evaluates its properties in order, and every property before
    the first read of the fee batch is free of effects. *)

Module Throwing.
Import Completion.
Local Open Scope float_scope.

(** [feeBatch.treasurySplit] *)
Definition treasurySplit (feeBatch : option FeeBatchDetail.t) : Completion.t float :=
  match feeBatch with
  | Some fb => Normal (FeeBatchDetail.treasurySplit fb)
  | None => TypeError
  end.

(** [feeBatch.stakerSplit] *)
Definition stakerSplit (feeBatch : option FeeBatchDetail.t) : Completion.t float :=
  match feeBatch with
  | Some fb => Normal (FeeBatchDetail.stakerSplit fb)
  | None => TypeError
  end.

Definition performanceFromGetFees (fees : PerformanceFeeCallResponse.t)
    (feeBatch : option FeeBatchDetail.t) : Completion.t PerformanceFee.t :=
  let total :=
    BigNumber.div1e9_toNumber (PerformanceFeeCallResponse.total fees) / 1e9 in
  let beefy :=
    BigNumber.div1e9_toNumber (PerformanceFeeCallResponse.beefy fees) / 1e9 in
  let call :=
    BigNumber.div1e9_toNumber (PerformanceFeeCallResponse.call fees) / 1e9 in
  let strategist :=
    BigNumber.div1e9_toNumber (PerformanceFeeCallResponse.strategist fees) / 1e9 in
  let feeSum := beefy + call + strategist in
  let beefySplit := (total * beefy) / feeSum in
  treasurySplit <- treasurySplit feeBatch ;;
  stakerSplit <- stakerSplit feeBatch ;;
  Normal {| PerformanceFee.total := total;
            PerformanceFee.call := (total * call) / feeSum;
            PerformanceFee.strategist := (total * strategist) / feeSum;
            PerformanceFee.treasury := treasurySplit * beefySplit;
            PerformanceFee.stakers := stakerSplit * beefySplit |}.

Definition legacyFeeMappings (contractCalls : StrategyCallResponse.t)
    (feeBatch : option FeeBatchDetail.t)
  : Completion.t (option PerformanceFee.t) :=
  let total := 0.045 in
  let callFee :=
    call contractCalls ?? call2 contractCalls ?? call3 contractCalls
      ?? call4 contractCalls in
  let strategistFee := strategist contractCalls ?? strategist2 contractCalls in
  let maxFee :=
    maxFee contractCalls ?? maxFee2 contractCalls ?? maxFee3 contractCalls in
  let beefyFee := beefy contractCalls in
  let fee := fee contractCalls in
  let treasury := treasury contractCalls in
  let rewards := rewards contractCalls ?? rewards2 contractCalls in
  if callFee + strategistFee + beefyFee === maxFee then
    treasurySplit <- treasurySplit feeBatch ;;
    stakerSplit <- stakerSplit feeBatch ;;
    Normal
      (Some {| PerformanceFee.total := total;
               PerformanceFee.call := (total * callFee) / maxFee;
               PerformanceFee.strategist := (total * strategistFee) / maxFee;
               PerformanceFee.treasury :=
                 (total * treasurySplit * beefyFee) / maxFee;
               PerformanceFee.stakers :=
                 (total * stakerSplit * beefyFee) / maxFee |})
  else if callFee + strategistFee + rewards + treasury === maxFee then
    Normal
      (Some {| PerformanceFee.total := total;
               PerformanceFee.call := (total * callFee) / maxFee;
               PerformanceFee.strategist := (total * strategistFee) / maxFee;
               PerformanceFee.treasury := (total * treasury) / maxFee;
               PerformanceFee.stakers := (total * rewards) / maxFee |})
  else if fee + callFee === maxFee then
    let total := 0.05 in
    Normal
      (Some {| PerformanceFee.total := total;
               PerformanceFee.call := (total * callFee) / maxFee;
               PerformanceFee.strategist := 0;
               PerformanceFee.treasury := 0;
               PerformanceFee.stakers := (total * fee) / maxFee |})
  else if negb (Js.isNaN (strategistFee + callFee + beefyFee)) then
    treasurySplit <- treasurySplit feeBatch ;;
    stakerSplit <- stakerSplit feeBatch ;;
    Normal
      (Some {| PerformanceFee.total := total;
               PerformanceFee.call := (total * callFee) / maxFee;
               PerformanceFee.strategist := (total * strategistFee) / maxFee;
               PerformanceFee.treasury :=
                 (total * treasurySplit * beefyFee) / maxFee;
               PerformanceFee.stakers :=
                 (total * stakerSplit * beefyFee) / maxFee |})
  else if negb (Js.isNaN (strategistFee + callFee + treasury)) then
    Normal
      (Some {| PerformanceFee.total := total;
               PerformanceFee.call := (total * callFee) / maxFee;
               PerformanceFee.strategist := (total * strategistFee) / maxFee;
               PerformanceFee.treasury := (total * treasury) / maxFee;
               PerformanceFee.stakers := 0 |})
  else if callFee + treasury + rewards === maxFee then
    Normal
      (Some {| PerformanceFee.total := total;
               PerformanceFee.call := (total * callFee) / maxFee;
               PerformanceFee.strategist := 0;
               PerformanceFee.treasury := (total * treasury) / maxFee;
               PerformanceFee.stakers := (total * rewards) / maxFee |})
  else if callFee + beefyFee === maxFee then
    let total :=
      if String.eqb (id contractCalls) "cake-cakev2-eol" then 0.01 else total in
    treasurySplit <- treasurySplit feeBatch ;;
    stakerSplit <- stakerSplit feeBatch ;;
    Normal
      (Some {| PerformanceFee.total := total;
               PerformanceFee.call := (total * callFee) / maxFee;
               PerformanceFee.strategist := 0;
               PerformanceFee.treasury :=
                 (total * treasurySplit * beefyFee) / maxFee;
               PerformanceFee.stakers :=
                 (total * stakerSplit * beefyFee) / maxFee |})
  else if callFee + fee === maxFee then
    Normal
      (Some {| PerformanceFee.total := total;
               PerformanceFee.call := (total * callFee) / maxFee;
               PerformanceFee.strategist := 0;
               PerformanceFee.treasury := 0;
               PerformanceFee.stakers := (total * fee) / maxFee |})
  else Normal None.

Definition performanceFeesFromCalls (contractCalls : StrategyCallResponse.t)
    (feeBatch : option FeeBatchDetail.t)
  : Completion.t (option PerformanceFee.t) :=
  match allFees contractCalls with
  | Some fees =>
      performanceFee <-
        performanceFromGetFees (AllFees.performance fees) feeBatch ;;
      Normal (Some performanceFee)
  | None =>
      match breakdown contractCalls with
      | Some fees =>
          performanceFee <- performanceFromGetFees fees feeBatch ;;
          Normal (Some performanceFee)
      | None =>
          if Js.includes (id contractCalls) "-maxi"
          then Normal (Some (performanceForMaxi contractCalls))
          else legacyFeeMappings contractCalls feeBatch
      end
  end.

Definition mapStrategyCallsToFeeBreakdown (now : Z)
    (contractCalls : StrategyCallResponse.t)
    (feeBatch : option FeeBatchDetail.t)
  : Completion.t (option VaultFeeBreakdown.t) :=
  let withdrawFee := withdrawalFeeFromCalls contractCalls in
  performanceFee <- performanceFeesFromCalls contractCalls feeBatch ;;
  let depositFee := depositFeeFromCalls contractCalls in
  Normal
    match withdrawFee with
    | None => None
    | Some withdrawFee =>
        match performanceFee with
        | None => None
        | Some performanceFee =>
            Some {| VaultFeeBreakdown.performance := performanceFee;
                    VaultFeeBreakdown.withdraw := withdrawFee;
                    VaultFeeBreakdown.deposit := depositFee;
                    VaultFeeBreakdown.lastUpdated := now |}
        end
    end.

(** How [results.forEach] ends inside the [try] of [getChainFees]: it
    went through all results, or an exception left it; either way the
    cache keeps what was written until then. *)
Inductive run : Type :=
| Completed (vaultFees : gmap string VaultFeeBreakdown.t)
| Aborted (vaultFees : gmap string VaultFeeBreakdown.t).

Definition cache (r : run) : gmap string VaultFeeBreakdown.t :=
  match r with
  | Completed vaultFees => vaultFees
  | Aborted vaultFees => vaultFees
  end.

(** The [for ... of callResponses] loop of one fulfilled batch.  The
    assignment [vaultFees[id] = fees] makes or replaces an own property,
    for every id but "__proto__" (whose assignment would replace the
    object's prototype instead). *)
Fixpoint storeResponses (feeBatch : option FeeBatchDetail.t)
    (vaultFees : gmap string VaultFeeBreakdown.t)
    (callResponses : list (Z * StrategyCallResponse.t)) : run :=
  match callResponses with
  | [] => Completed vaultFees
  | (now, contractCalls) :: rest =>
      match mapStrategyCallsToFeeBreakdown now contractCalls feeBatch with
      | TypeError => Aborted vaultFees
      | Normal (Some fees) =>
          storeResponses feeBatch (<[ id contractCalls := fees ]> vaultFees) rest
      | Normal None => storeResponses feeBatch vaultFees rest
      end
  end.

(** [results.forEach]. *)
Fixpoint storeResults (feeBatch : option FeeBatchDetail.t)
    (vaultFees : gmap string VaultFeeBreakdown.t)
    (results : list (ChainFees.settled (list (Z * StrategyCallResponse.t))))
  : run :=
  match results with
  | [] => Completed vaultFees
  | ChainFees.fulfilled callResponses :: rest =>
      match storeResponses feeBatch vaultFees callResponses with
      | Completed vaultFees => storeResults feeBatch vaultFees rest
      | Aborted vaultFees => Aborted vaultFees
      end
  | ChainFees.rejected _ :: rest => storeResults feeBatch vaultFees rest
  end.

End Throwing.

(** ** Selecting the vaults to refresh (updateVaultFees) *)

Module Vault.
Record t : Set := mk {
  id : string;
  chain : string;
  strategy : string;
}.
End Vault.

Module Refresh.

Definition CACHE_EXPIRY : Z := 1000 * 60 * 60 * 12.

(** The second filter of [updateVaultFees], [now] being the reading of
    [Date.now()] when the vault is tested. *)
Definition isStale (now : Z) (vaultFees : gmap string VaultFeeBreakdown.t)
    (v : Vault.t) : bool :=
  match JsObject.get vaultFees (Vault.id v) with
  | JsObject.Missing => true
  | JsObject.Own fees =>
      (CACHE_EXPIRY <? now - VaultFeeBreakdown.lastUpdated fees)%Z
  | JsObject.Inherited =>
      (* truthy, and its [lastUpdated] is [undefined]: NaN > CACHE_EXPIRY *)
      false
  end.

(** [chainVaults] for the chain named [chainName] (that is [ChainId[chain]]);
    [clock v] is the reading of [Date.now()] when [v] is tested. *)
Definition chainVaults (chainName : string) (clock : Vault.t -> Z)
    (vaultFees : gmap string VaultFeeBreakdown.t) (vaults : list Vault.t)
  : list Vault.t :=
  List.filter (fun v => isStale (clock v) vaultFees v)
    (List.filter (fun vault => String.eqb (Vault.chain vault) chainName) vaults).

End Refresh.

(** ** Sample refresh data *)

Module Fixtures.
Import Js.

(** A probe that the first legacy branch accepts. *)
Definition classified : StrategyCallResponse.t :=
  Samples.legacy "moo-a" "0x1" (Num 500) (Num 0) (Num 4000) undefined
    undefined undefined (Num 10000) undefined undefined None.

(** What [classified] is mapped to at time 1700000000000 under the split
    0.14 / 0.86. *)
Definition classifiedFees : VaultFeeBreakdown.t :=
  {| VaultFeeBreakdown.performance :=
       {| PerformanceFee.total := 0.045;
          PerformanceFee.call := 0.00225;
          PerformanceFee.strategist := 0;
          PerformanceFee.treasury := (0.045 * 0.14 * 4000 / 10000)%float;
          PerformanceFee.stakers := (0.045 * 0.86 * 4000 / 10000)%float |};
     VaultFeeBreakdown.withdraw := 0;
     VaultFeeBreakdown.deposit := None;
     VaultFeeBreakdown.lastUpdated := 1700000000000 |}.

(** A probe that no generation accepts. *)
Definition unclassified : StrategyCallResponse.t := Samples.silent "moo-b" "0x2".

(** One fulfilled batch holding both probes, and a rejected batch. *)
Definition results
  : list (ChainFees.settled (list (Z * StrategyCallResponse.t))) :=
  [ ChainFees.fulfilled [ (1700000000000%Z, classified);
                          (1700000000001%Z, unclassified) ];
    ChainFees.rejected "timeout" ].

(** A probe answered by the breakdown getter and by the withdrawal
    accessors. *)
Definition viaBreakdown : StrategyCallResponse.t :=
  {| id := "moo-c"; strategy := "0x3";
     strategist := undefined; strategist2 := undefined;
     call := undefined; call2 := undefined; call3 := undefined;
     call4 := undefined; maxCallFee := undefined; beefy := undefined;
     fee := undefined; treasury := undefined; rewards := undefined;
     rewards2 := undefined;
     breakdown := Some (AllFees.performance Samples.fees95);
     allFees := None;
     maxFee := undefined; maxFee2 := undefined; maxFee3 := undefined;
     withdraw := Num 10; withdraw2 := undefined;
     withdrawMax := Num 10000; withdrawMax2 := undefined;
     paused := Some false |}.

(** A "-maxi" vault whose strategy is on no list: it reports a call fee
    of 5 and no maximum call fee. *)
Definition unlistedMaxi : StrategyCallResponse.t :=
  Samples.legacy "fantom-bifi-maxi" "0x5" (Num 5) (Num 7) (Num 9)
    undefined undefined undefined (Num 1000) undefined undefined None.

(** A legacy probe without any call-fee accessor. *)
Definition noCallFee : StrategyCallResponse.t :=
  Samples.legacy "moo-d" "0x4" undefined (Num 500) (Num 9500) (Num 10000)
    (Num 4000) (Num 5000) (Num 10000) undefined undefined None.

(** A legacy probe without any max-fee accessor. *)
Definition noMaxFee : StrategyCallResponse.t :=
  Samples.legacy "moo-e" "0x6" (Num 500) (Num 500) (Num 3000) undefined
    undefined undefined undefined undefined undefined None.

(** [getFees] reporting a total of 9.5% and no component. *)
Definition zeroComponents : PerformanceFeeCallResponse.t :=
  {| PerformanceFeeCallResponse.total := (95 * 10 ^ 15)%N;
     PerformanceFeeCallResponse.beefy := 0%N;
     PerformanceFeeCallResponse.strategist := 0%N;
     PerformanceFeeCallResponse.call := 0%N |}.

Definition vaultA : Vault.t :=
  {| Vault.id := "moo-a"; Vault.chain := "bsc"; Vault.strategy := "0x1" |}.
Definition vaultB : Vault.t :=
  {| Vault.id := "moo-b"; Vault.chain := "bsc"; Vault.strategy := "0x2" |}.

(** The address book of three chains with the outcome of their calls. *)
Definition book : list (Z * string * FeeBatches.callResult) :=
  [ (56%Z, "0xfeebatch56", FeeBatches.Resolved 360);
    (1%Z, "0xfeebatch1", FeeBatches.Rejected "execution reverted");
    (250%Z, "0xfeebatch250", FeeBatches.Rejected "timeout") ].

End Fixtures.

(** * Properties *)

Section JsProperties.

Lemma prefix_app (p s : string) :
  String.prefix p s = true <-> exists post, s = p ++ post.
Proof.
  revert p. induction s as [| b s IH]; intros [| a p]; cbn.
  - split; [intros _; exists ""; reflexivity | reflexivity].
  - split; [discriminate | intros [? ?]; discriminate].
  - split; [intros _; eexists; reflexivity | reflexivity].
  - destruct (ascii_dec a b) as [-> | Hne].
    + rewrite IH. split; intros [post H]; exists post.
      * rewrite H. reflexivity.
      * cbn in H. injection H as H. exact H.
    + split; [discriminate |]. intros [post H]. cbn in H.
      injection H as H _. exfalso. apply Hne. symmetry. exact H.
Qed.

(** [Js.includes s search] holds exactly when [search] occurs in [s]. *)
Lemma includes_spec (s search : string) :
  Js.includes s search = true <-> exists pre post, s = pre ++ search ++ post.
Proof.
  induction s as [| a s IH]; cbn [Js.includes].
  - destruct (String.prefix search "") eqn:Hp.
    + split; [intros _ | reflexivity].
      apply prefix_app in Hp as [post Hp]. exists "", post. exact Hp.
    + split; [discriminate |]. intros (pre & post & H).
      destruct pre; [| discriminate]. cbn in H.
      assert (String.prefix search "" = true) by (apply prefix_app; eauto).
      congruence.
  - destruct (String.prefix search (String a s)) eqn:Hp.
    + split; [intros _ | reflexivity].
      apply prefix_app in Hp as [post Hp]. exists "", post. exact Hp.
    + rewrite IH. split.
      * intros (pre & post & ->). exists (String a pre), post. reflexivity.
      * intros (pre & post & H). destruct pre as [| b pre].
        -- cbn in H.
           assert (String.prefix search (String a s) = true)
             by (apply prefix_app; eauto).
           congruence.
        -- injection H as _ ->. eauto.
Qed.

(** On operands that binary64 holds exactly, [BigNumber.nearest] is the
    machine division. *)
Example nearest_is_division :
  forallb
    (fun a =>
       forallb
         (fun b =>
            PrimFloat.eqb (BigNumber.nearest (Z.of_nat a) (Z.of_nat b))
              (BigNumber.toNumber (N.of_nat a) / BigNumber.toNumber (N.of_nat b)))
         (seq 1 60))
    (seq 0 60)
  = true.
Proof. vm_compute. reflexivity. Qed.

(** Ties go to the even neighbour, also among the subnormals. *)
Example nearest_ties_to_even :
  BigNumber.toNumber (2 ^ 53 + 1)%N = 9007199254740992%float
  /\ BigNumber.toNumber (2 ^ 53 + 3)%N = 9007199254740996%float
  /\ BigNumber.nearest 3 (2 ^ 1075)%Z = BigNumber.nearest 4 (2 ^ 1075)%Z
  /\ BigNumber.nearest 1 (2 ^ 1075)%Z = 0%float
  /\ BigNumber.div1e9_toNumber (95 * 10 ^ 15)%N = 95000000%float.
Proof. repeat split; vm_compute; reflexivity. Qed.

End JsProperties.

Section WithdrawAndDeposit.
Local Open Scope float_scope.
Import Js.

Lemma nullish_num (a b : Js.value) (x : float) :
  (a = Num x \/ (a = undefined /\ b = Num x)) -> a ?? b = Num x.
Proof. intros [-> | [-> ->]]; reflexivity. Qed.

(** [withdrawalFeeFromCalls] has a [return] of a number on every path. *)
Lemma withdrawalFeeFromCalls_defined (c : StrategyCallResponse.t) :
  exists w, withdrawalFeeFromCalls c = Some w.
Proof.
  unfold withdrawalFeeFromCalls.
  destruct (allFees c); [eauto |].
  match goal with |- context [if ?b then _ else _] => destruct b end; eauto.
Qed.

(** C5: the withdraw fee is the aggregate getter's withdraw value over
    10000 when the aggregate getter responded; otherwise it is 0 when the
    strategy reports paused, or no withdraw accessor responded, or no
    max-withdraw accessor responded; otherwise it is the first responding
    withdraw accessor divided by the first responding max-withdraw
    accessor. *)
Theorem withdrawalFeeFromCalls_cases (c : StrategyCallResponse.t) :
  (forall fees, allFees c = Some fees ->
     withdrawalFeeFromCalls c
     = Some (BigNumber.toNumber (AllFees.withdraw fees) / 10000))
  /\ (allFees c = None ->
      paused c = Some true
      \/ (withdraw c = undefined /\ withdraw2 c = undefined)
      \/ (withdrawMax c = undefined /\ withdrawMax2 c = undefined) ->
      withdrawalFeeFromCalls c = Some 0)
  /\ (forall w m,
        allFees c = None ->
        paused c <> Some true ->
        withdraw c = Num w \/ (withdraw c = undefined /\ withdraw2 c = Num w) ->
        withdrawMax c = Num m
        \/ (withdrawMax c = undefined /\ withdrawMax2 c = Num m) ->
        withdrawalFeeFromCalls c = Some (w / m)).
Proof.
  unfold withdrawalFeeFromCalls. repeat split.
  - intros fees ->. reflexivity.
  - intros -> [Hp | [[-> ->] | [-> ->]]].
    + rewrite Hp. cbn. rewrite orb_true_r. reflexivity.
    + reflexivity.
    + cbn. rewrite orb_true_r. reflexivity.
  - intros w m -> Hp Hw Hm.
    rewrite (nullish_num _ _ _ Hw), (nullish_num _ _ _ Hm).
    assert (Js.truthy (paused c) = false) as ->.
    { destruct (paused c) as [[] |]; [congruence | reflexivity | reflexivity]. }
    assert (is_undefined (withdraw c) && is_undefined (withdraw2 c) = false) as ->.
    { destruct Hw as [-> | [-> ->]]; reflexivity. }
    assert (is_undefined (withdrawMax c) && is_undefined (withdrawMax2 c) = false) as ->.
    { destruct Hm as [-> | [-> ->]]; reflexivity. }
    reflexivity.
Qed.

Lemma withdrawalFeeFromCalls_cases_witness :
  withdrawalFeeFromCalls (Samples.aggregate "v" "0x1" Samples.fees95)
  = Some 0.001
  /\ withdrawalFeeFromCalls
       (Samples.legacy "v" "0x1" undefined undefined undefined undefined
          undefined undefined undefined (Num 10) (Num 10000) (Some true))
     = Some 0
  /\ withdrawalFeeFromCalls
       (Samples.legacy "v" "0x1" undefined undefined undefined undefined
          undefined undefined undefined (Num 10) (Num 10000) (Some false))
     = Some 0.001.
Proof.
  split; [| split].
  - apply (proj1 (withdrawalFeeFromCalls_cases _) Samples.fees95).
    reflexivity.
  - apply (proj1 (proj2 (withdrawalFeeFromCalls_cases _))).
    + reflexivity.
    + left. reflexivity.
  - apply (proj2 (proj2 (withdrawalFeeFromCalls_cases _)) 10 10000).
    + reflexivity.
    + discriminate.
    + left. reflexivity.
    + left. reflexivity.
Defined.

(** C6: a breakdown has a [deposit] field exactly when the aggregate
    getter responded, and then it is the aggregate deposit value over
    10000; otherwise the field is absent. *)
Theorem deposit_iff_aggregate (now : Z) (c : StrategyCallResponse.t)
    (fb : FeeBatchDetail.t) (b : VaultFeeBreakdown.t) :
  mapStrategyCallsToFeeBreakdown now c fb = Some b ->
  (forall fees, allFees c = Some fees ->
     VaultFeeBreakdown.deposit b
     = Some (BigNumber.toNumber (AllFees.deposit fees) / 10000))
  /\ (allFees c = None -> VaultFeeBreakdown.deposit b = None)
  /\ (is_Some (VaultFeeBreakdown.deposit b) <-> is_Some (allFees c)).
Proof.
  unfold mapStrategyCallsToFeeBreakdown, depositFeeFromCalls.
  destruct (withdrawalFeeFromCalls c); [| discriminate].
  destruct (performanceFeesFromCalls c fb); [| discriminate].
  intros [= <-]. cbn.
  destruct (allFees c) as [fees |].
  - split; [intros ? [= <-]; reflexivity |].
    split; [discriminate |]. split; eauto.
  - split; [discriminate |]. split; [reflexivity |].
    split; intros [? ?]; discriminate.
Qed.

Lemma deposit_iff_aggregate_witness :
  VaultFeeBreakdown.deposit
    {| VaultFeeBreakdown.performance :=
         performanceFromGetFees (AllFees.performance Samples.fees95)
           Samples.split14;
       VaultFeeBreakdown.withdraw := 0.001;
       VaultFeeBreakdown.deposit := Some 0.01;
       VaultFeeBreakdown.lastUpdated := 0 |}
  = Some (BigNumber.toNumber 100%N / 10000)
  /\ VaultFeeBreakdown.deposit
       {| VaultFeeBreakdown.performance :=
            {| PerformanceFee.total := 0.05;
               PerformanceFee.call := 0.0025;
               PerformanceFee.strategist := 0;
               PerformanceFee.treasury := 0;
               PerformanceFee.stakers := 0.0475 |};
          VaultFeeBreakdown.withdraw := 0.001;
          VaultFeeBreakdown.deposit := None;
          VaultFeeBreakdown.lastUpdated := 0 |}
     = None.
Proof.
  split.
  - refine (proj1 (deposit_iff_aggregate 0
                     (Samples.aggregate "moo-vault" "0x1" Samples.fees95)
                     Samples.split14 _ _) Samples.fees95 eq_refl).
    vm_compute. reflexivity.
  - refine (proj1 (proj2 (deposit_iff_aggregate 0
                     (Samples.legacy "moo-vault" "0x1" (Num 500) undefined
                        undefined (Num 9500) undefined undefined (Num 10000)
                        (Num 10) (Num 10000) None)
                     Samples.split14 _ _)) eq_refl).
    vm_compute. reflexivity.
Defined.

(** C10: [withdrawalFeeFromCalls] always returns a number: without the
    aggregate getter it returns 0 or divides two accessors that both
    responded.  The classification therefore yields no breakdown exactly
    when the performance-fee derivation yields none. *)
Theorem breakdown_fails_only_on_performance (now : Z)
    (c : StrategyCallResponse.t) (fb : FeeBatchDetail.t) :
  (exists w, withdrawalFeeFromCalls c = Some w)
  /\ ((exists fees, allFees c = Some fees)
      \/ withdrawalFeeFromCalls c = Some 0
      \/ exists w m,
           withdraw c ?? withdraw2 c = Num w
           /\ withdrawMax c ?? withdrawMax2 c = Num m
           /\ withdrawalFeeFromCalls c = Some (w / m))
  /\ (mapStrategyCallsToFeeBreakdown now c fb = None
      <-> performanceFeesFromCalls c fb = None).
Proof.
  destruct (withdrawalFeeFromCalls_defined c) as [w Hw].
  split; [eauto |]. split.
  - clear w Hw. unfold withdrawalFeeFromCalls.
    destruct (allFees c) as [fees |]; [left; eauto | right].
    destruct (withdraw c) as [| w1], (withdraw2 c) as [| w2],
      (withdrawMax c) as [| m1], (withdrawMax2 c) as [| m2];
      cbn; auto; destruct (Js.truthy (paused c)); auto;
      right; do 2 eexists; repeat split.
  - unfold mapStrategyCallsToFeeBreakdown. rewrite Hw.
    destruct (performanceFeesFromCalls c fb); split; congruence.
Qed.

End WithdrawAndDeposit.

Section RegistryProperties.
Local Open Scope float_scope.
Import FeeBatches.

(** The record that [updateFeeBatches] stores for a numerator [n]. *)
Lemma updateFeeBatch_stores zksync (fb : gmap Z FeeBatchDetail.t)
    (chainId : Z) (addr : string) (res : callResult) :
  truthy (readTreasurySplit zksync chainId res) = true ->
  updateFeeBatch zksync fb chainId addr res
  = <[ chainId :=
         {| FeeBatchDetail.address := addr;
            FeeBatchDetail.treasurySplit :=
              ToNumber (readTreasurySplit zksync chainId res) / 1000;
            FeeBatchDetail.stakerSplit :=
              1 - ToNumber (readTreasurySplit zksync chainId res) / 1000 |} ]> fb.
Proof. unfold updateFeeBatch. intros ->. reflexivity. Qed.

Lemma complementary_upto_1000 (n : N) :
  (n <= 1000)%N -> complementary n = true.
Proof.
  intros Hn.
  assert (Hall : forallb complementary (map N.of_nat (seq 0 1001)) = true)
    by (vm_compute; reflexivity).
  rewrite forallb_forall in Hall. apply Hall.
  rewrite <- (N2Nat.id n). apply in_map. apply in_seq. lia.
Qed.

Lemma readTreasurySplit_cases zksync chainId res :
  (exists n, res = Resolved n /\ readTreasurySplit zksync chainId res = FromCall n)
  \/ (exists m, res = Rejected m
                /\ (readTreasurySplit zksync chainId res = Default 140
                    \/ readTreasurySplit zksync chainId res = Default 640
                    \/ readTreasurySplit zksync chainId res = Unassigned)).
Proof.
  destruct res as [n | m]; [left; eauto | right].
  exists m. split; [reflexivity |]. cbn.
  destruct (_ || _); [auto |]. destruct (_ && _); auto.
Qed.

Lemma updateFeeBatch_sum_one zksync (fb : gmap Z FeeBatchDetail.t)
    (chainId : Z) (addr : string) (res : callResult) :
  (forall n, res = Resolved n -> (n <= 1000)%N) ->
  (forall c d, fb !! c = Some d ->
     PrimFloat.eqb (FeeBatchDetail.treasurySplit d + FeeBatchDetail.stakerSplit d) 1
     = true) ->
  forall c d, updateFeeBatch zksync fb chainId addr res !! c = Some d ->
    PrimFloat.eqb (FeeBatchDetail.treasurySplit d + FeeBatchDetail.stakerSplit d) 1
    = true.
Proof.
  intros Hres Hfb c d. unfold updateFeeBatch.
  destruct (truthy _) eqn:Ht; [| apply Hfb].
  destruct (decide (chainId = c)) as [-> | Hne].
  - rewrite lookup_insert_eq. intros [= <-]. cbn.
    destruct (readTreasurySplit_cases zksync c res)
      as [(n & -> & ->) | (m & -> & [-> | [-> | Hu]])].
    + apply (complementary_upto_1000 n). apply Hres. reflexivity.
    + reflexivity.
    + reflexivity.
    + rewrite Hu in Ht. discriminate.
  - rewrite lookup_insert_ne by assumption. apply Hfb.
Qed.

(** The numerators of the domain of a split, 0 to 1000 per mille, are
    those whose [treasurySplit] lies in [[0, 1]]; 1001 is already above. *)
Lemma numerator_in_domain (n : N) :
  (n <= 1000)%N ->
  PrimFloat.leb 0 (BigNumber.toNumber n / 1000)
  && PrimFloat.leb (BigNumber.toNumber n / 1000) 1 = true.
Proof.
  intros Hn.
  assert (Hall :
            forallb
              (fun n => PrimFloat.leb 0 (BigNumber.toNumber n / 1000)
                        && PrimFloat.leb (BigNumber.toNumber n / 1000) 1)
              (map N.of_nat (seq 0 1001)) = true)
    by (vm_compute; reflexivity).
  rewrite forallb_forall in Hall. apply Hall.
  rewrite <- (N2Nat.id n). apply in_map. apply in_seq. lia.
Qed.

Example numerator_above_domain :
  PrimFloat.leb (BigNumber.toNumber 1001%N / 1000) 1 = false.
Proof. reflexivity. Qed.

(** C7: every record that [updateFeeBatches] stores for a split of the
    data model's domain ([treasurySplit] a fraction in [[0, 1]], that is a
    numerator of at most 1000 per mille read from the contract, or one of
    the defaulted numerators 140 and 640) has
    [treasurySplit + stakerSplit == 1] exactly, in binary64; the update
    keeps this invariant of the registry. *)
Theorem updateFeeBatches_sum_one zksync
    (book : list (Z * string * callResult)) (fb : gmap Z FeeBatchDetail.t) :
  Forall (fun entry => forall n, snd entry = Resolved n -> (n <= 1000)%N) book ->
  (forall c d, fb !! c = Some d ->
     PrimFloat.eqb (FeeBatchDetail.treasurySplit d + FeeBatchDetail.stakerSplit d) 1
     = true) ->
  forall c d, updateFeeBatches zksync book fb !! c = Some d ->
    PrimFloat.eqb (FeeBatchDetail.treasurySplit d + FeeBatchDetail.stakerSplit d) 1
    = true.
Proof.
  unfold updateFeeBatches. intros Hbook. revert fb.
  induction Hbook as [| [[chainId addr] res] book Hres _ IH]; intros fb Hfb.
  - exact Hfb.
  - cbn [fold_left]. apply IH.
    apply updateFeeBatch_sum_one; assumption.
Qed.

Lemma updateFeeBatches_sum_one_witness :
  exists d,
    updateFeeBatches 324
      [ (56%Z, "0xfeebatch", Resolved 360);
        (1%Z, "0xfeebatch", Rejected "execution reverted");
        (250%Z, "0xfeebatch", Rejected "timeout") ] ∅ !! 56%Z = Some d
    /\ PrimFloat.eqb (FeeBatchDetail.treasurySplit d + FeeBatchDetail.stakerSplit d) 1
       = true.
Proof.
  eexists. split; [vm_compute; reflexivity |].
  apply (updateFeeBatches_sum_one 324
           [ (56%Z, "0xfeebatch", Resolved 360);
             (1%Z, "0xfeebatch", Rejected "execution reverted");
             (250%Z, "0xfeebatch", Rejected "timeout") ] ∅) with (c := 56%Z).
  - repeat constructor; cbn; intros n [= <-]; lia.
  - intros c d. rewrite lookup_empty. discriminate.
  - vm_compute. reflexivity.
Defined.

(** Far outside that domain the sum is no longer 1: a numerator of 10^19
    per mille is stored as the pair 1e16 and -1e16, whose sum is 0. *)
Lemma updateFeeBatch_sum_not_one :
  exists d,
    updateFeeBatch 324 ∅ 56 "0xfeebatch" (Resolved (10 ^ 19)) !! 56%Z = Some d
    /\ FeeBatchDetail.treasurySplit d = 1e16
    /\ FeeBatchDetail.stakerSplit d = (-1e16)
    /\ PrimFloat.eqb (FeeBatchDetail.treasurySplit d + FeeBatchDetail.stakerSplit d) 1
       = false.
Proof.
  eexists. split; [apply lookup_insert_eq |].
  repeat split; vm_compute; reflexivity.
Qed.

(** C8: on a failed [treasuryFee] call, a message containing "revert" or
    "correct ABI" stores the split of the default numerator 140 (0.14);
    otherwise, on zksync, a message containing "cannot estimate gas" stores
    the split of the numerator 640; any other failure leaves the registry,
    and so the chain's cached split, as it was. *)
Theorem updateFeeBatch_rejected zksync (fb : gmap Z FeeBatchDetail.t)
    (chainId : Z) (addr message : string) :
  (Js.includes message "revert" = true
   \/ Js.includes message "correct ABI" = true ->
   updateFeeBatch zksync fb chainId addr (Rejected message)
   = <[ chainId := {| FeeBatchDetail.address := addr;
                      FeeBatchDetail.treasurySplit := 0.14;
                      FeeBatchDetail.stakerSplit := 1 - 0.14 |} ]> fb)
  /\ (Js.includes message "revert" = false ->
      Js.includes message "correct ABI" = false ->
      chainId = zksync ->
      Js.includes message "cannot estimate gas" = true ->
      updateFeeBatch zksync fb chainId addr (Rejected message)
      = <[ chainId := {| FeeBatchDetail.address := addr;
                         FeeBatchDetail.treasurySplit := 0.64;
                         FeeBatchDetail.stakerSplit := 1 - 0.64 |} ]> fb)
  /\ (Js.includes message "revert" = false ->
      Js.includes message "correct ABI" = false ->
      chainId <> zksync \/ Js.includes message "cannot estimate gas" = false ->
      updateFeeBatch zksync fb chainId addr (Rejected message) = fb).
Proof.
  unfold updateFeeBatch, readTreasurySplit. repeat split.
  - intros H.
    assert (Js.includes message "revert" || Js.includes message "correct ABI" = true) as ->
      by (apply orb_true_iff; exact H).
    reflexivity.
  - intros -> -> -> ->. rewrite Z.eqb_refl. reflexivity.
  - intros -> -> H.
    assert ((chainId =? zksync)%Z && Js.includes message "cannot estimate gas" = false) as ->.
    { apply andb_false_iff. destruct H as [H | H]; [left | right; exact H].
      apply Z.eqb_neq. exact H. }
    reflexivity.
Qed.

Lemma updateFeeBatch_rejected_witness :
  updateFeeBatch 324 ∅ 1 "0xfeebatch"
    (Rejected "Returned values aren't valid, did it run Out of Gas? You might also see this error if you are not using the correct ABI for the contract")
  = {[ 1%Z := {| FeeBatchDetail.address := "0xfeebatch";
                 FeeBatchDetail.treasurySplit := 0.14;
                 FeeBatchDetail.stakerSplit := 0.86 |} ]}
  /\ updateFeeBatch 324 ∅ 324 "0xfeebatch"
       (Rejected "cannot estimate gas; transaction may fail")
     = {[ 324%Z := {| FeeBatchDetail.address := "0xfeebatch";
                      FeeBatchDetail.treasurySplit := 0.64;
                      FeeBatchDetail.stakerSplit := 0.36 |} ]}
  /\ updateFeeBatch 324
       {[ 1%Z := {| FeeBatchDetail.address := "0xfeebatch";
                    FeeBatchDetail.treasurySplit := 0.36;
                    FeeBatchDetail.stakerSplit := 0.64 |} ]}
       1 "0xfeebatch" (Rejected "cannot estimate gas; transaction may fail")
     = {[ 1%Z := {| FeeBatchDetail.address := "0xfeebatch";
                    FeeBatchDetail.treasurySplit := 0.36;
                    FeeBatchDetail.stakerSplit := 0.64 |} ]}.
Proof.
  split; [| split].
  - apply (proj1 (updateFeeBatch_rejected 324 ∅ 1 "0xfeebatch" _)).
    right. vm_compute. reflexivity.
  - apply (proj1 (proj2 (updateFeeBatch_rejected 324 ∅ 324 "0xfeebatch" _)));
      vm_compute; reflexivity.
  - apply (proj2 (proj2 (updateFeeBatch_rejected 324 _ 1 "0xfeebatch" _))).
    + vm_compute. reflexivity.
    + vm_compute. reflexivity.
    + left. discriminate.
Defined.

End RegistryProperties.

Section CacheProperties.
Local Open Scope float_scope.

Lemma get_own {A : Type} (object : gmap string A) (key : string) (value : A) :
  object !! key = Some value -> JsObject.get object key = JsObject.Own value.
Proof. unfold JsObject.get. intros ->. reflexivity. Qed.

Lemma get_missing {A : Type} (object : gmap string A) (key : string) :
  object !! key = None ->
  ~ In key JsObject.inherited ->
  JsObject.get object key = JsObject.Missing.
Proof.
  unfold JsObject.get, Js.array_includes. intros -> Hnot.
  destruct (existsb (String.eqb key) JsObject.inherited) eqn:Hex;
    [| reflexivity].
  apply existsb_exists in Hex as (name & Hin & Heq).
  apply String.eqb_eq in Heq. subst name. contradiction.
Qed.

Lemma get_inherited {A : Type} (object : gmap string A) (key : string) :
  object !! key = None ->
  In key JsObject.inherited ->
  JsObject.get object key = JsObject.Inherited.
Proof.
  unfold JsObject.get, Js.array_includes. intros -> Hin.
  assert (existsb (String.eqb key) JsObject.inherited = true) as ->;
    [| reflexivity].
  apply existsb_exists. exists key. split; [exact Hin |].
  apply String.eqb_refl.
Qed.

(** C9: [getTotalPerformanceFeeForVault] returns the cached entry's
    [performance.total], and 0.095 for a vault id without an entry, unless
    that id names a member inherited from [Object.prototype] (such as
    "constructor"): the lookup then finds the inherited member and reading
    [.performance.total] off it throws a [TypeError]. *)
Theorem getTotalPerformanceFeeForVault_spec
    (vaultFees : gmap string VaultFeeBreakdown.t) (vaultId : string) :
  (forall fees, vaultFees !! vaultId = Some fees ->
     getTotalPerformanceFeeForVault vaultFees vaultId
     = Completion.Normal
         (PerformanceFee.total (VaultFeeBreakdown.performance fees)))
  /\ (vaultFees !! vaultId = None ->
      ~ In vaultId JsObject.inherited ->
      getTotalPerformanceFeeForVault vaultFees vaultId
      = Completion.Normal 0.095)
  /\ (vaultFees !! vaultId = None ->
      In vaultId JsObject.inherited ->
      getTotalPerformanceFeeForVault vaultFees vaultId
      = Completion.TypeError).
Proof.
  unfold getTotalPerformanceFeeForVault. split; [| split].
  - intros fees Hfees. rewrite (get_own _ _ _ Hfees). reflexivity.
  - intros Hnone Hnot. rewrite (get_missing _ _ Hnone Hnot). reflexivity.
  - intros Hnone Hin. rewrite (get_inherited _ _ Hnone Hin). reflexivity.
Qed.

Lemma getTotalPerformanceFeeForVault_spec_witness :
  getTotalPerformanceFeeForVault {[ "moo-vault" := Samples.cached ]}
    "moo-vault"
  = Completion.Normal 0.045
  /\ getTotalPerformanceFeeForVault {[ "moo-vault" := Samples.cached ]}
       "unknown"
     = Completion.Normal 0.095
  /\ getTotalPerformanceFeeForVault {[ "moo-vault" := Samples.cached ]}
       "constructor"
     = Completion.TypeError.
Proof.
  split; [| split].
  - apply (proj1 (getTotalPerformanceFeeForVault_spec
                    {[ "moo-vault" := Samples.cached ]} "moo-vault")
             Samples.cached).
    vm_compute. reflexivity.
  - apply (proj1 (proj2 (getTotalPerformanceFeeForVault_spec
                           {[ "moo-vault" := Samples.cached ]} "unknown"))).
    + vm_compute. reflexivity.
    + cbn. intuition discriminate.
  - apply (proj2 (proj2 (getTotalPerformanceFeeForVault_spec
                           {[ "moo-vault" := Samples.cached ]} "constructor"))).
    + vm_compute. reflexivity.
    + left. reflexivity.
Defined.

End CacheProperties.

Section LegacyProperties.
Local Open Scope float_scope.
Import Js.

(** The [if]/[else if] chain of [legacyFeeMappings] is a first-match
    search through [Legacy.branches]. *)
Lemma legacyFeeMappings_firstMatch (c : StrategyCallResponse.t)
    (fb : FeeBatchDetail.t) :
  legacyFeeMappings c fb = Legacy.firstMatch (Legacy.branches c fb).
Proof.
  unfold legacyFeeMappings, Legacy.firstMatch, Legacy.branches,
    Legacy.branchesWith, Legacy.beefyResult, Legacy.treasuryResult,
    Legacy.feeResult, Legacy.callFee, Legacy.strategistFee, Legacy.maxFee,
    Legacy.rewards.
  cbn [find fst]. cbv zeta.
  repeat match goal with
         | |- context [if (?x === ?v) then _ else _] => destruct (x === v)
         | |- context [if negb ?b then _ else _] => destruct (negb b)
         end;
    reflexivity.
Qed.

Lemma performanceFeesFromCalls_legacy (c : StrategyCallResponse.t)
    (fb : FeeBatchDetail.t) :
  isLegacy c -> performanceFeesFromCalls c fb = legacyFeeMappings c fb.
Proof.
  intros (Ha & Hb & Hid). unfold performanceFeesFromCalls.
  rewrite Ha, Hb, Hid. reflexivity.
Qed.

(** What first-match search returns: the result of a true test all of
    whose predecessors are false, or nothing when every test is false. *)
Lemma firstMatch_Some (l : list (bool * PerformanceFee.t)) (r : PerformanceFee.t) :
  Legacy.firstMatch l = Some r <->
  exists pre post,
    l = (pre ++ (true, r) :: post)%list /\ Forall (fun b => fst b = false) pre.
Proof.
  unfold Legacy.firstMatch. induction l as [| [t r'] l IH]; cbn [find fst].
  - split; [discriminate | intros ([| ? ?] & ? & ? & _); discriminate].
  - destruct t.
    + split.
      * intros [= ->]. exists [], l. split; [reflexivity | constructor].
      * intros (pre & post & Hl & Hpre). destruct pre as [| b pre].
        -- injection Hl as <- _. reflexivity.
        -- injection Hl as <- _. inversion Hpre; subst. discriminate.
    + rewrite IH. split.
      * intros (pre & post & -> & Hpre). exists ((false, r') :: pre), post.
        split; [reflexivity | constructor; [reflexivity | assumption]].
      * intros (pre & post & Hl & Hpre). destruct pre as [| b pre].
        -- discriminate.
        -- injection Hl as <- ->. inversion Hpre; subst. eauto.
Qed.

Lemma firstMatch_None (l : list (bool * PerformanceFee.t)) :
  Legacy.firstMatch l = None <-> Forall (fun b => fst b = false) l.
Proof.
  unfold Legacy.firstMatch. induction l as [| [t r'] l IH]; cbn [find fst].
  - split; [constructor | reflexivity].
  - destruct t.
    + split; [discriminate | intros H; inversion H; subst; discriminate].
    + rewrite IH. split.
      * intros H. constructor; [reflexivity | assumption].
      * intros H. inversion H; assumption.
Qed.

(** C1 (amended): a legacy probe is classified by the first of the eight
    branches, in source order, whose test holds, and fails when none does;
    six tests compare a component sum with the max fee, while the fourth and
    the fifth only ask that strategist+call+beefy, respectively
    strategist+call+treasury, is not NaN.  In particular a probe with
    call+strategist+beefy == maxFee gets the result of that first branch,
    whatever other shape (such as call+treasury+rewards == maxFee) it also
    satisfies. *)
Theorem legacy_first_branch_wins (c : StrategyCallResponse.t)
    (fb : FeeBatchDetail.t) :
  isLegacy c ->
  (forall r,
     performanceFeesFromCalls c fb = Some r <->
     exists pre post,
       Legacy.branches c fb = (pre ++ (true, r) :: post)%list
       /\ Forall (fun b => fst b = false) pre)
  /\ (performanceFeesFromCalls c fb = None <->
      Forall (fun b => fst b = false) (Legacy.branches c fb))
  /\ (Legacy.callFee c + Legacy.strategistFee c + beefy c === Legacy.maxFee c
      = true ->
      performanceFeesFromCalls c fb
      = Some (Legacy.beefyResult 0.045
                ((0.045 * Legacy.strategistFee c) / Legacy.maxFee c) c fb)).
Proof.
  intros Hleg.
  rewrite (performanceFeesFromCalls_legacy c fb Hleg),
    legacyFeeMappings_firstMatch.
  split; [| split].
  - intros r. apply firstMatch_Some.
  - apply firstMatch_None.
  - intros H1. unfold Legacy.firstMatch, Legacy.branches, Legacy.branchesWith.
    cbn [find fst]. rewrite H1. reflexivity.
Qed.

Lemma legacy_first_branch_wins_witness :
  let c := Samples.legacy "moo-vault" "0x1" (Num 1000) (Num 0) (Num 9000)
             undefined (Num 4000) (Num 5000) (Num 10000)
             undefined undefined None in
  Legacy.callFee c + treasury c + Legacy.rewards c === Legacy.maxFee c = true
  /\ performanceFeesFromCalls c Samples.split14
     = Some {| PerformanceFee.total := 0.045;
               PerformanceFee.call := 0.0045;
               PerformanceFee.strategist := 0;
               PerformanceFee.treasury := (0.045 * 0.14 * 9000) / 10000;
               PerformanceFee.stakers := (0.045 * 0.86 * 9000) / 10000 |}.
Proof.
  intros c. split; [reflexivity |].
  assert (Hleg : isLegacy c) by (repeat split; reflexivity).
  apply (proj2 (proj2 (legacy_first_branch_wins c Samples.split14 Hleg))).
  reflexivity.
Defined.

(** C1 (as stated) fails: with call = 500, strategist = 500, beefy = 3000
    and maxFee = 10000 no component sum equals the max fee, so matching by
    sum finds nothing, yet the probe is classified (by the fourth branch). *)
Lemma legacy_accepts_without_sum_match :
  let c := Samples.legacy "moo-vault" "0x1" (Num 500) (Num 500) (Num 3000)
             undefined undefined undefined (Num 10000)
             undefined undefined None in
  isLegacy c
  /\ forallb (fun sum => negb (sum === Legacy.maxFee c)) (Legacy.sums c) = true
  /\ Legacy.firstMatch (Legacy.shapesBySum c Samples.split14) = None
  /\ performanceFeesFromCalls c Samples.split14
     = Some {| PerformanceFee.total := 0.045;
               PerformanceFee.call := 0.00225;
               PerformanceFee.strategist := 0.00225;
               PerformanceFee.treasury := (0.045 * 0.14 * 3000) / 10000;
               PerformanceFee.stakers := (0.045 * 0.86 * 3000) / 10000 |}.
Proof.
  intros c. split; [repeat split; reflexivity |].
  repeat split; vm_compute; reflexivity.
Qed.

(** C3 (amended): the total of a legacy classification is a constant
    fixed by the branch that accepted the probe: 0.05 exactly when the
    fee+call shape is the first to match, 0.01 exactly when the vault is
    "cake-cakev2-eol" and the call+beefy shape is the first to match, and
    0.045 in every other case. *)
Theorem legacy_total_constant (c : StrategyCallResponse.t)
    (fb : FeeBatchDetail.t) (pf : PerformanceFee.t) :
  let callFee := Legacy.callFee c in
  let strategistFee := Legacy.strategistFee c in
  let maxFee := Legacy.maxFee c in
  let rewards := Legacy.rewards c in
  let t1 := callFee + strategistFee + beefy c === maxFee in
  let t2 := callFee + strategistFee + rewards + treasury c === maxFee in
  let t3 := fee c + callFee === maxFee in
  let n4 := Js.isNaN (strategistFee + callFee + beefy c) in
  let n5 := Js.isNaN (strategistFee + callFee + treasury c) in
  let t6 := callFee + treasury c + rewards === maxFee in
  let t7 := callFee + beefy c === maxFee in
  isLegacy c ->
  performanceFeesFromCalls c fb = Some pf ->
  (PerformanceFee.total pf = 0.05
   /\ t1 = false /\ t2 = false /\ t3 = true)
  \/ (PerformanceFee.total pf = 0.01
      /\ id c = "cake-cakev2-eol"
      /\ t1 = false /\ t2 = false /\ t3 = false /\ n4 = true /\ n5 = true
      /\ t6 = false /\ t7 = true)
  \/ (PerformanceFee.total pf = 0.045
      /\ (t1 = true \/ t2 = true \/ t3 = false)
      /\ (id c <> "cake-cakev2-eol" \/ t1 = true \/ t2 = true \/ t3 = true
          \/ n4 = false \/ n5 = false \/ t6 = true \/ t7 = false)).
Proof.
  intros callFee strategistFee maxFee rewards t1 t2 t3 n4 n5 t6 t7 Hleg.
  rewrite (performanceFeesFromCalls_legacy c fb Hleg).
  unfold legacyFeeMappings. cbv zeta.
  change (call c ?? call2 c ?? call3 c ?? call4 c) with callFee.
  change (strategist c ?? strategist2 c) with strategistFee.
  change (StrategyCallResponse.maxFee c ?? maxFee2 c ?? maxFee3 c) with maxFee.
  change (StrategyCallResponse.rewards c ?? rewards2 c) with rewards.
  fold t1 t2 t3 n4 n5 t6 t7.
  destruct t1 eqn:H1; [intros [= <-]; cbn; right; right; auto 10 |].
  destruct t2 eqn:H2; [intros [= <-]; cbn; right; right; auto 10 |].
  destruct t3 eqn:H3; [intros [= <-]; cbn; left; auto |].
  destruct n4 eqn:H4; cbn [negb];
    [| intros [= <-]; cbn; right; right; auto 10].
  destruct n5 eqn:H5; cbn [negb];
    [| intros [= <-]; cbn; right; right; auto 10].
  destruct t6 eqn:H6; [intros [= <-]; cbn; right; right; auto 10 |].
  destruct t7 eqn:H7.
  - intros [= <-]. cbn [PerformanceFee.total].
    destruct (String.eqb_spec (id c) "cake-cakev2-eol") as [Hid | Hid].
    + right; left. repeat split; auto.
    + right; right. auto 10.
  - destruct (callFee + fee c === maxFee); [| discriminate].
    intros [= <-]. cbn. right; right. auto 12.
Qed.

Lemma legacy_total_constant_witness :
  (let c := Samples.legacy "moo-vault" "0x1" (Num 500) undefined undefined
              (Num 9500) undefined undefined (Num 10000)
              undefined undefined None in
   exists pf,
     performanceFeesFromCalls c Samples.split14 = Some pf
     /\ PerformanceFee.total pf = 0.05)
  /\ (let c := Samples.legacy "cake-cakev2-eol" "0x1" (Num 1000) undefined
                 (Num 9000) undefined undefined undefined (Num 10000)
                 undefined undefined None in
      exists pf,
        performanceFeesFromCalls c Samples.split14 = Some pf
        /\ PerformanceFee.total pf = 0.01).
Proof.
  split; intros c.
  - destruct (performanceFeesFromCalls c Samples.split14) as [pf |] eqn:Hpf;
      [| vm_compute in Hpf; discriminate].
    exists pf. split; [reflexivity |].
    destruct (legacy_total_constant c Samples.split14 pf
                ltac:(repeat split; reflexivity) Hpf)
      as [(Ht & _) | [(_ & _ & _ & _ & H3 & _) | (_ & H123 & _)]].
    + exact Ht.
    + vm_compute in H3. discriminate.
    + vm_compute in H123. intuition discriminate.
  - destruct (performanceFeesFromCalls c Samples.split14) as [pf |] eqn:Hpf;
      [| vm_compute in Hpf; discriminate].
    exists pf. split; [reflexivity |].
    destruct (legacy_total_constant c Samples.split14 pf
                ltac:(repeat split; reflexivity) Hpf)
      as [(_ & _ & _ & H3) | [(Ht & _) | (_ & _ & Hcake)]].
    + vm_compute in H3. discriminate.
    + exact Ht.
    + vm_compute in Hcake. intuition discriminate.
Defined.

(** C3 (as stated) fails: the vault "cake-cakev2-eol" with call = 1000,
    beefy = 9000 and maxFee = 10000 is a legacy classification whose total
    is 0.01, neither 0.045 nor 0.05. *)
Lemma legacy_total_cake :
  let c := Samples.legacy "cake-cakev2-eol" "0x1" (Num 1000) undefined
             (Num 9000) undefined undefined undefined (Num 10000)
             undefined undefined None in
  isLegacy c
  /\ exists pf,
       performanceFeesFromCalls c Samples.split14 = Some pf
       /\ PerformanceFee.total pf = 0.01
       /\ PrimFloat.eqb (PerformanceFee.total pf) 0.045 = false
       /\ PrimFloat.eqb (PerformanceFee.total pf) 0.05 = false.
Proof.
  intros c. split; [repeat split; reflexivity |].
  eexists. split; [vm_compute; reflexivity |].
  repeat split; reflexivity.
Qed.

(** The total of a legacy classification need not be the sum of its
    parts: here the parts add up to 0.018 under a total of 0.045. *)
Example legacy_total_is_not_the_sum :
  let c := Samples.legacy "moo-vault" "0x1" (Num 500) (Num 500) (Num 3000)
             undefined undefined undefined (Num 10000)
             undefined undefined None in
  exists pf,
    performanceFeesFromCalls c Samples.split14 = Some pf
    /\ PerformanceFee.total pf = 0.045
    /\ PrimFloat.ltb
         (PerformanceFee.call pf + PerformanceFee.strategist pf
          + PerformanceFee.treasury pf + PerformanceFee.stakers pf)
         0.019
       = true.
Proof.
  intros c. eexists. split; [vm_compute; reflexivity |].
  split; reflexivity.
Qed.

(** C4: the legacy probe call = 500, strategist = 0, beefy = 4000,
    maxFee = 10000, with nothing else responding, under the split
    0.14 / 0.86, is classified as total 0.045, call 0.00225, strategist 0,
    treasury 0.045*0.14*4000/10000 and stakers 0.045*0.86*4000/10000. *)
Theorem legacy_example (vaultId strategyAddress feeBatchAddress : string)
    (now : Z) :
  let c := Samples.legacy vaultId strategyAddress (Num 500) (Num 0) (Num 4000)
             undefined undefined undefined (Num 10000)
             undefined undefined None in
  let fb := {| FeeBatchDetail.address := feeBatchAddress;
               FeeBatchDetail.treasurySplit := 0.14;
               FeeBatchDetail.stakerSplit := 0.86 |} in
  let pf := {| PerformanceFee.total := 0.045;
               PerformanceFee.call := 0.00225;
               PerformanceFee.strategist := 0;
               PerformanceFee.treasury := 0.045 * 0.14 * 4000 / 10000;
               PerformanceFee.stakers := 0.045 * 0.86 * 4000 / 10000 |} in
  Js.includes vaultId "-maxi" = false ->
  performanceFeesFromCalls c fb = Some pf
  /\ mapStrategyCallsToFeeBreakdown now c fb
     = Some {| VaultFeeBreakdown.performance := pf;
               VaultFeeBreakdown.withdraw := 0;
               VaultFeeBreakdown.deposit := None;
               VaultFeeBreakdown.lastUpdated := now |}.
Proof.
  intros c fb pf Hid.
  assert (Hpf : performanceFeesFromCalls c fb = Some pf).
  { unfold performanceFeesFromCalls. cbn [allFees breakdown id c Samples.legacy].
    rewrite Hid. reflexivity. }
  split; [exact Hpf |].
  unfold mapStrategyCallsToFeeBreakdown. rewrite Hpf. reflexivity.
Qed.

Lemma legacy_example_witness :
  performanceFeesFromCalls
    (Samples.legacy "curve-poly-atricrypto3" "0x1" (Num 500) (Num 0)
       (Num 4000) undefined undefined undefined (Num 10000)
       undefined undefined None)
    Samples.split14
  = Some {| PerformanceFee.total := 0.045;
            PerformanceFee.call := 0.00225;
            PerformanceFee.strategist := 0;
            PerformanceFee.treasury := 0.045 * 0.14 * 4000 / 10000;
            PerformanceFee.stakers := 0.045 * 0.86 * 4000 / 10000 |}.
Proof.
  apply (proj1 (legacy_example "curve-poly-atricrypto3" "0x1" "0xfeebatch" 0
                  eq_refl)).
Defined.

End LegacyProperties.

Section MaxiProperties.
Local Open Scope float_scope.
Import Js.

(** C2 (amended): when neither getter responded and the vault id contains
    "-maxi", a strategy address on the allow-list (compared in lower case)
    gets the hand-coded rule of its entry, whatever the other individually
    named accessors returned: the constant 0.005 for the avax maxi, the call
    fee over 1000 for the first pair of addresses, 0.045 of call/maxFee for
    the next four, and call and rewards over maxFee for the old bifi maxi. *)
Theorem maxi_allow_list (c : StrategyCallResponse.t) (fb : FeeBatchDetail.t) :
  allFees c = None ->
  breakdown c = None ->
  Js.includes (id c) "-maxi" = true ->
  (toLowerCase (strategy c)
   = toLowerCase "0xca077eEC87e2621F5B09AFE47C42BAF88c6Af18c" ->
   performanceFeesFromCalls c fb
   = Some {| PerformanceFee.total := 0.005;
             PerformanceFee.call := 0.005;
             PerformanceFee.strategist := 0;
             PerformanceFee.treasury := 0;
             PerformanceFee.stakers := 0 |})
  /\ (In (toLowerCase (strategy c))
        (map toLowerCase [ "0x436D5127F16fAC1F021733dda090b5E6DE30b3bB";
                           "0xa9E6E271b27b20F65394914f8784B3B860dBd259" ]) ->
      performanceFeesFromCalls c fb
      = Some {| PerformanceFee.total := Legacy.callFee c / 1000;
                PerformanceFee.call := Legacy.callFee c / 1000;
                PerformanceFee.strategist := 0;
                PerformanceFee.treasury := 0;
                PerformanceFee.stakers := 0 |})
  /\ (In (toLowerCase (strategy c))
        (map toLowerCase [ "0x24AAaB9DA14308bAf9d670e2a37369FE8Cb5Fe36";
                           "0x22b3d90BDdC3Ad5F2948bE3914255C64Ebc8c9b3";
                           "0xbCF1e02ac0c45729dC85F290C4A6AB35c4801cB1";
                           "0xb25eB9105549627050AAB3A1c909fBD454014beA" ]) ->
      performanceFeesFromCalls c fb
      = Some {| PerformanceFee.total :=
                  (0.045 * Legacy.callFee c) / Legacy.maxFee c;
                PerformanceFee.call :=
                  (0.045 * Legacy.callFee c) / Legacy.maxFee c;
                PerformanceFee.strategist := 0;
                PerformanceFee.treasury := 0;
                PerformanceFee.stakers := 0 |})
  /\ (toLowerCase (strategy c)
      = toLowerCase "0x87056F5E8Dce0fD71605E6E291C6a3B53cbc3818" ->
      performanceFeesFromCalls c fb
      = Some {| PerformanceFee.total :=
                  (Legacy.callFee c + Legacy.rewards c) / Legacy.maxFee c;
                PerformanceFee.call := Legacy.callFee c / Legacy.maxFee c;
                PerformanceFee.strategist := 0;
                PerformanceFee.treasury := 0;
                PerformanceFee.stakers := Legacy.rewards c / Legacy.maxFee c |}).
Proof.
  intros Ha Hb Hid. unfold performanceFeesFromCalls. rewrite Ha, Hb, Hid.
  unfold performanceForMaxi. cbv zeta.
  repeat split.
  - intros ->. reflexivity.
  - cbn [map In]. intros [<- | [<- | []]]; reflexivity.
  - cbn [map In]. intros [<- | [<- | [<- | [<- | []]]]]; reflexivity.
  - intros ->. reflexivity.
Qed.

Lemma maxi_allow_list_witness :
  performanceFeesFromCalls Samples.avaxMaxiProbe Samples.split14
  = Some {| PerformanceFee.total := 0.005;
            PerformanceFee.call := 0.005;
            PerformanceFee.strategist := 0;
            PerformanceFee.treasury := 0;
            PerformanceFee.stakers := 0 |}.
Proof.
  apply (proj1 (maxi_allow_list Samples.avaxMaxiProbe Samples.split14
                  eq_refl eq_refl eq_refl)).
  reflexivity.
Defined.

(** C2 (as stated) fails: the avax maxi address is on the allow-list, but a
    probe for it in which [getAllFees] responded is classified from that
    response (total 0.095 here), not as the hand-coded 0.005. *)
Lemma maxi_overridden_by_aggregate :
  let c := Samples.aggregate "avax-bifi-maxi" Samples.avaxMaxi Samples.fees95 in
  toLowerCase (strategy c)
  = toLowerCase "0xca077eEC87e2621F5B09AFE47C42BAF88c6Af18c"
  /\ exists pf,
       performanceFeesFromCalls c Samples.split14 = Some pf
       /\ PerformanceFee.total pf = 0.095
       /\ PrimFloat.eqb (PerformanceFee.total pf) (5 / 1000) = false.
Proof.
  intros c. split; [reflexivity |].
  eexists. split; [vm_compute; reflexivity |].
  split; reflexivity.
Qed.

End MaxiProperties.

(** * Further properties of the module *)

Section FloatFacts.
Local Open Scope float_scope.

Lemma SFadd_comm (x y : spec_float) :
  SFadd prec emax x y = SFadd prec emax y x.
Proof.
  destruct x as [sx | sx | | sx mx ex], y as [sy | sy | | sy my ey];
    try reflexivity;
    try (destruct sx, sy; reflexivity).
  cbn [SFadd]. rewrite (Z.min_comm ex ey), Z.add_comm. reflexivity.
Qed.

(** binary64 addition commutes. *)
Lemma float_add_comm (x y : float) : x + y = y + x.
Proof. apply Prim2SF_inj. rewrite !add_spec. apply SFadd_comm. Qed.

Lemma float_add_nan_l (y : float) : nan + y = nan.
Proof. apply Prim2SF_inj. rewrite add_spec. reflexivity. Qed.

Lemma float_add_nan_r (x : float) : x + nan = nan.
Proof. rewrite float_add_comm. apply float_add_nan_l. Qed.

Lemma float_mul_nan_r (x : float) : x * nan = nan.
Proof.
  apply Prim2SF_inj. rewrite mul_spec. cbn.
  destruct (Prim2SF x); reflexivity.
Qed.

Lemma float_div_nan_r (x : float) : x / nan = nan.
Proof.
  apply Prim2SF_inj. rewrite div_spec. cbn.
  destruct (Prim2SF x); reflexivity.
Qed.

Lemma float_eqb_nan_l (y : float) : PrimFloat.eqb nan y = false.
Proof. rewrite FloatAxioms.eqb_spec. reflexivity. Qed.

(** [0 / 0], whatever finite or infinite [t] the zero numerator comes
    from. *)
Lemma float_mul0_div0 (t : float) : (t * 0) / 0 = nan.
Proof.
  apply Prim2SF_inj. rewrite div_spec, mul_spec.
  change (Prim2SF 0) with (S754_zero false).
  change (Prim2SF nan) with S754_nan.
  destruct (Prim2SF t) as [s | s | | s m e]; reflexivity.
Qed.

Lemma strict_eq_nan (v : Js.value) : nan === v = false.
Proof. destruct v; [reflexivity | apply float_eqb_nan_l]. Qed.

End FloatFacts.

Section BatchProperties.
Import ChainFees.
Context {A : Type}.

Lemma slice_length (l : list A) (i batchSize : nat) :
  length (slice l i (i + batchSize)) = Nat.min batchSize (length l - i).
Proof.
  unfold slice. rewrite length_firstn, length_skipn.
  replace (i + batchSize - i) with batchSize by lia. reflexivity.
Qed.

(** With a positive batch size and fuel for the elements that are left,
    the loop ends; its batches are the rest of the array, cut into
    non-empty pieces of at most [batchSize] elements, all full but
    possibly the last. *)
Lemma batchesFrom_spec (fuel : nat) (l : list A) (batchSize i : nat) :
  0 < batchSize ->
  length l - i <= fuel ->
  exists r,
    batchesFrom fuel l batchSize i = Some r
    /\ concat r = skipn i l
    /\ Forall (fun b => 1 <= length b <= batchSize) r
    /\ length l - i <= length r * batchSize
    /\ (r <> [] -> (length r - 1) * batchSize < length l - i).
Proof.
  intros Hpos. revert i.
  induction fuel as [| fuel IH]; intros i Hfuel; cbn [batchesFrom].
  - destruct (Nat.ltb_spec i (length l)) as [Hlt | Hge]; [lia |].
    exists []. rewrite skipn_all2 by lia. cbn.
    repeat split; [constructor | lia | congruence].
  - destruct (Nat.ltb_spec i (length l)) as [Hlt | Hge].
    + destruct (IH (i + batchSize)) as (r & -> & Hcat & Hall & Hup & Hlow);
        [lia |].
      exists (slice l i (i + batchSize) :: r). cbn [option_map concat].
      split; [reflexivity |]. split; [| split; [| split]].
      * rewrite Hcat. unfold slice.
        replace (i + batchSize - i) with batchSize by lia.
        rewrite (Nat.add_comm i batchSize), <- skipn_skipn.
        apply firstn_skipn.
      * constructor; [rewrite slice_length; lia | exact Hall].
      * cbn [length]. lia.
      * intros _. cbn [length]. destruct r as [| b r].
        -- cbn. lia.
        -- specialize (Hlow ltac:(discriminate)). cbn [length] in *. nia.
    + exists []. rewrite skipn_all2 by lia. cbn.
      repeat split; [constructor | lia | congruence].
Qed.

(** More fuel than the loop needs changes nothing. *)
Lemma batchesFrom_more_fuel (fuel extra : nat) (l : list A)
    (batchSize i : nat) (r : list (list A)) :
  batchesFrom fuel l batchSize i = Some r ->
  batchesFrom (fuel + extra) l batchSize i = Some r.
Proof.
  revert i r. induction fuel as [| fuel IH]; intros i r; cbn [batchesFrom].
  - destruct (i <? length l)%nat eqn:Hi; [discriminate |].
    intros [= <-]. cbn [Nat.add].
    destruct extra; cbn [batchesFrom]; rewrite Hi; reflexivity.
  - cbn [Nat.add batchesFrom]. destruct (i <? length l)%nat; [| auto].
    destruct (batchesFrom fuel l batchSize (i + batchSize)) as [r' |] eqn:Hr;
      [| discriminate].
    rewrite (IH _ _ Hr). auto.
Qed.

End BatchProperties.

Section ChainBatches.
Import ChainFees.
Context {A : Type}.

Lemma batchSizeForChain_pos (chain : string) : 0 < batchSizeForChain chain.
Proof.
  unfold batchSizeForChain, MULTICALL_BATCH_SIZES, DEFAULT_MULTICALL_BATCH_SIZE.
  destruct (String.eqb chain "polygon"); lia.
Qed.

(** X1: on every chain the batching loop ends and its batches, put end to
    end, are the call contexts in their order: none is lost, repeated or
    moved; no batch is empty and none exceeds the chain's batch size. *)
Theorem chain_batches_partition (chain : string) (contractCallContext : list A) :
  exists r,
    batches (batchSizeForChain chain) contractCallContext = Some r
    /\ concat r = contractCallContext
    /\ Forall (fun b => 1 <= length b <= batchSizeForChain chain) r.
Proof.
  destruct (batchesFrom_spec (length contractCallContext) contractCallContext
              (batchSizeForChain chain) 0 (batchSizeForChain_pos chain))
    as (r & Hr & Hcat & Hall & _); [lia |].
  exists r. repeat split; assumption.
Qed.

(** X2: the number of batches is the number of call contexts divided by
    the chain's batch size, rounded up (no call is made for an empty list),
    and the loop needs no more iterations than there are call contexts. *)
Theorem chain_batches_count (chain : string) (contractCallContext : list A) :
  exists r,
    batches (batchSizeForChain chain) contractCallContext = Some r
    /\ length contractCallContext <= length r * batchSizeForChain chain
    /\ (length r - 1) * batchSizeForChain chain
       <= length contractCallContext - 1
    /\ (length r = 0 <-> contractCallContext = [])
    /\ forall extra,
         batchesFrom (length contractCallContext + extra) contractCallContext
           (batchSizeForChain chain) 0 = Some r.
Proof.
  pose proof (batchSizeForChain_pos chain) as Hpos.
  destruct (batchesFrom_spec (length contractCallContext) contractCallContext
              (batchSizeForChain chain) 0 Hpos)
    as (r & Hr & Hcat & Hall & Hup & Hlow); [lia |].
  exists r. split; [exact Hr |]. rewrite Nat.sub_0_r in Hup, Hlow.
  split; [exact Hup |]. split; [| split].
  - destruct r as [| b r]; [cbn; lia |].
    specialize (Hlow ltac:(discriminate)). lia.
  - split.
    + intros H0. destruct r; [| discriminate].
      cbn in Hcat. symmetry. exact Hcat.
    + intros ->. destruct r as [| b r]; [reflexivity |].
      specialize (Hlow ltac:(discriminate)). cbn in Hlow. lia.
  - intros extra. apply batchesFrom_more_fuel. exact Hr.
Qed.

End ChainBatches.

Section StoreProperties.
Import ChainFees.

Lemma storeResponses_app (fb : FeeBatchDetail.t)
    (vf : gmap string VaultFeeBreakdown.t)
    (rs1 rs2 : list (Z * StrategyCallResponse.t)) :
  storeResponses fb vf (rs1 ++ rs2)%list
  = storeResponses fb (storeResponses fb vf rs1) rs2.
Proof. unfold storeResponses. apply fold_left_app. Qed.

(** Rejected batches and batch boundaries play no part in what is stored. *)
Lemma storeResults_flat (fb : FeeBatchDetail.t)
    (vf : gmap string VaultFeeBreakdown.t)
    (results : list (settled (list (Z * StrategyCallResponse.t)))) :
  storeResults fb vf results
  = storeResponses fb vf (fulfilledResponses results).
Proof.
  revert vf. induction results as [| res results IH]; intros vf;
    [reflexivity |].
  cbn [fulfilledResponses flat_map]. rewrite storeResponses_app.
  unfold storeResults in *. cbn [fold_left]. rewrite IH.
  destruct res; reflexivity.
Qed.

Lemma storeResponses_unchanged (fb : FeeBatchDetail.t)
    (vf : gmap string VaultFeeBreakdown.t)
    (rs : list (Z * StrategyCallResponse.t)) (vaultId : string) :
  (forall now c, In (now, c) rs -> id c = vaultId ->
     mapStrategyCallsToFeeBreakdown now c fb = None) ->
  storeResponses fb vf rs !! vaultId = vf !! vaultId.
Proof.
  revert vf. induction rs as [| [now c] rs IH]; intros vf Hfail;
    [reflexivity |].
  unfold storeResponses in *. cbn [fold_left].
  rewrite IH by (intros; eapply Hfail; [right |]; eassumption).
  destruct (mapStrategyCallsToFeeBreakdown now c fb) as [fees |] eqn:Hc;
    [| reflexivity].
  apply lookup_insert_ne. intros Hid.
  rewrite (Hfail now c (or_introl eq_refl) Hid) in Hc. discriminate.
Qed.

Lemma storeResponses_last (fb : FeeBatchDetail.t)
    (vf : gmap string VaultFeeBreakdown.t)
    (rs1 rs2 : list (Z * StrategyCallResponse.t)) (now : Z)
    (c : StrategyCallResponse.t) (fees : VaultFeeBreakdown.t) :
  mapStrategyCallsToFeeBreakdown now c fb = Some fees ->
  (forall now' c', In (now', c') rs2 -> id c' = id c ->
     mapStrategyCallsToFeeBreakdown now' c' fb = None) ->
  storeResponses fb vf (rs1 ++ (now, c) :: rs2)%list !! id c = Some fees.
Proof.
  intros Hc Hlater. rewrite storeResponses_app.
  change (storeResponses fb ?m ((now, c) :: rs2))
    with (storeResponses fb
            (match mapStrategyCallsToFeeBreakdown now c fb with
             | Some fees => <[ id c := fees ]> m
             | None => m
             end) rs2).
  rewrite Hc, storeResponses_unchanged by exact Hlater.
  apply lookup_insert_eq.
Qed.

Lemma storeResults_lookup_last (fb : FeeBatchDetail.t)
    (vf : gmap string VaultFeeBreakdown.t)
    (results : list (settled (list (Z * StrategyCallResponse.t))))
    (rs1 rs2 : list (Z * StrategyCallResponse.t)) (now : Z)
    (c : StrategyCallResponse.t) (fees : VaultFeeBreakdown.t) :
  fulfilledResponses results = (rs1 ++ (now, c) :: rs2)%list ->
  mapStrategyCallsToFeeBreakdown now c fb = Some fees ->
  (forall now' c', In (now', c') rs2 -> id c' = id c ->
     mapStrategyCallsToFeeBreakdown now' c' fb = None) ->
  storeResults fb vf results !! id c = Some fees.
Proof.
  intros Hrs Hc Hlater. rewrite storeResults_flat, Hrs.
  apply storeResponses_last; assumption.
Qed.

Lemma storeResponses_keeps (fb : FeeBatchDetail.t)
    (vf : gmap string VaultFeeBreakdown.t)
    (rs : list (Z * StrategyCallResponse.t)) (vaultId : string) :
  is_Some (vf !! vaultId) -> is_Some (storeResponses fb vf rs !! vaultId).
Proof.
  revert vf. induction rs as [| [now c] rs IH]; intros vf Hin;
    [exact Hin |].
  unfold storeResponses in *. cbn [fold_left]. apply IH.
  destruct (mapStrategyCallsToFeeBreakdown now c fb); [| exact Hin].
  rewrite lookup_insert. case_decide; eauto.
Qed.

Lemma classified_lastUpdated (now : Z) (c : StrategyCallResponse.t)
    (fb : FeeBatchDetail.t) (fees : VaultFeeBreakdown.t) :
  mapStrategyCallsToFeeBreakdown now c fb = Some fees ->
  VaultFeeBreakdown.lastUpdated fees = now
  /\ performanceFeesFromCalls c fb = Some (VaultFeeBreakdown.performance fees).
Proof.
  unfold mapStrategyCallsToFeeBreakdown.
  destruct (withdrawalFeeFromCalls c); [| discriminate].
  destruct (performanceFeesFromCalls c fb); [| discriminate].
  intros [= <-]. split; reflexivity.
Qed.

End StoreProperties.

Section ThrowingProperties.
Import ChainFees Completion.

(** With the chain's fee batch the functions of [Throwing] are the
    classifier of the first part, and nothing throws. *)
Lemma throwing_legacyFeeMappings_Some (c : StrategyCallResponse.t)
    (fb : FeeBatchDetail.t) :
  Throwing.legacyFeeMappings c (Some fb) = Normal (legacyFeeMappings c fb).
Proof.
  unfold Throwing.legacyFeeMappings, legacyFeeMappings. cbv zeta.
  repeat match goal with
         | |- context [if (?x === ?v) then _ else _] => destruct (x === v)
         | |- context [if negb ?b then _ else _] => destruct (negb b)
         end;
    reflexivity.
Qed.

Lemma throwing_performanceFeesFromCalls_Some (c : StrategyCallResponse.t)
    (fb : FeeBatchDetail.t) :
  Throwing.performanceFeesFromCalls c (Some fb)
  = Normal (performanceFeesFromCalls c fb).
Proof.
  unfold Throwing.performanceFeesFromCalls, performanceFeesFromCalls.
  destruct (allFees c); [reflexivity |].
  destruct (breakdown c); [reflexivity |].
  destruct (Js.includes _ _); [reflexivity |].
  apply throwing_legacyFeeMappings_Some.
Qed.

Lemma throwing_map_Some (now : Z) (c : StrategyCallResponse.t)
    (fb : FeeBatchDetail.t) :
  Throwing.mapStrategyCallsToFeeBreakdown now c (Some fb)
  = Normal (mapStrategyCallsToFeeBreakdown now c fb).
Proof.
  unfold Throwing.mapStrategyCallsToFeeBreakdown.
  rewrite throwing_performanceFeesFromCalls_Some. reflexivity.
Qed.

Lemma throwing_storeResponses_Some (fb : FeeBatchDetail.t)
    (vf : gmap string VaultFeeBreakdown.t)
    (rs : list (Z * StrategyCallResponse.t)) :
  Throwing.storeResponses (Some fb) vf rs
  = Throwing.Completed (storeResponses fb vf rs).
Proof.
  revert vf. induction rs as [| [now c] rs IH]; intros vf; [reflexivity |].
  cbn [Throwing.storeResponses]. rewrite throwing_map_Some.
  unfold storeResponses. cbn [fold_left].
  destruct (mapStrategyCallsToFeeBreakdown now c fb); apply IH.
Qed.

Lemma throwing_storeResults_Some (fb : FeeBatchDetail.t)
    (vf : gmap string VaultFeeBreakdown.t)
    (results : list (settled (list (Z * StrategyCallResponse.t)))) :
  Throwing.storeResults (Some fb) vf results
  = Throwing.Completed (storeResults fb vf results).
Proof.
  revert vf. induction results as [| [rs | reason] results IH]; intros vf;
    [reflexivity | |]; cbn [Throwing.storeResults].
  - rewrite throwing_storeResponses_Some. apply IH.
  - apply IH.
Qed.

Lemma throwing_storeResponses_app (feeBatch : option FeeBatchDetail.t)
    (vf : gmap string VaultFeeBreakdown.t)
    (rs1 rs2 : list (Z * StrategyCallResponse.t)) :
  Throwing.storeResponses feeBatch vf (rs1 ++ rs2)%list
  = match Throwing.storeResponses feeBatch vf rs1 with
    | Throwing.Completed vf' => Throwing.storeResponses feeBatch vf' rs2
    | Throwing.Aborted vf' => Throwing.Aborted vf'
    end.
Proof.
  revert vf. induction rs1 as [| [now c] rs1 IH]; intros vf; [reflexivity |].
  cbn [app Throwing.storeResponses].
  destruct (Throwing.mapStrategyCallsToFeeBreakdown now c feeBatch)
    as [[fees |] |]; [apply IH | apply IH | reflexivity].
Qed.

(** Rejected batches and batch boundaries play no part, also when the
    loop is left by an exception. *)
Lemma throwing_storeResults_flat (feeBatch : option FeeBatchDetail.t)
    (vf : gmap string VaultFeeBreakdown.t)
    (results : list (settled (list (Z * StrategyCallResponse.t)))) :
  Throwing.storeResults feeBatch vf results
  = Throwing.storeResponses feeBatch vf (fulfilledResponses results).
Proof.
  revert vf. induction results as [| [rs | reason] results IH]; intros vf;
    [reflexivity | |]; cbn [Throwing.storeResults fulfilledResponses flat_map].
  - rewrite throwing_storeResponses_app.
    destruct (Throwing.storeResponses feeBatch vf rs); [apply IH | reflexivity].
  - apply IH.
Qed.

Lemma throwing_storeResponses_unchanged (feeBatch : option FeeBatchDetail.t)
    (vf : gmap string VaultFeeBreakdown.t)
    (rs : list (Z * StrategyCallResponse.t)) (vaultId : string) :
  (forall now c fees, In (now, c) rs -> id c = vaultId ->
     Throwing.mapStrategyCallsToFeeBreakdown now c feeBatch
     <> Normal (Some fees)) ->
  Throwing.cache (Throwing.storeResponses feeBatch vf rs) !! vaultId
  = vf !! vaultId.
Proof.
  revert vf. induction rs as [| [now c] rs IH]; intros vf Hfail;
    [reflexivity |].
  cbn [Throwing.storeResponses].
  destruct (Throwing.mapStrategyCallsToFeeBreakdown now c feeBatch)
    as [[fees |] |] eqn:Hc.
  - rewrite IH by (intros; eapply Hfail; [right |]; eassumption).
    apply lookup_insert_ne. intros Hid.
    apply (Hfail now c fees (or_introl eq_refl) Hid). exact Hc.
  - apply IH. intros; eapply Hfail; [right |]; eassumption.
  - reflexivity.
Qed.

(** A response whose classification throws ends the loop: what follows
    it is not stored. *)
Lemma throwing_storeResponses_abort (feeBatch : option FeeBatchDetail.t)
    (vf : gmap string VaultFeeBreakdown.t)
    (rs1 rs2 : list (Z * StrategyCallResponse.t)) (now : Z)
    (c : StrategyCallResponse.t) :
  Throwing.mapStrategyCallsToFeeBreakdown now c feeBatch = TypeError ->
  Throwing.storeResponses feeBatch vf (rs1 ++ (now, c) :: rs2)%list
  = Throwing.Aborted
      (Throwing.cache (Throwing.storeResponses feeBatch vf rs1)).
Proof.
  intros Hc. rewrite throwing_storeResponses_app.
  destruct (Throwing.storeResponses feeBatch vf rs1); [| reflexivity].
  cbn [Throwing.storeResponses Throwing.cache]. rewrite Hc. reflexivity.
Qed.

(** Whether the legacy mapping finds no branch does not depend on the fee
    batch, present or not. *)
Lemma throwing_legacy_none (c : StrategyCallResponse.t)
    (feeBatch : option FeeBatchDetail.t) (fb : FeeBatchDetail.t) :
  Throwing.legacyFeeMappings c feeBatch = Normal None
  <-> legacyFeeMappings c fb = None.
Proof.
  unfold Throwing.legacyFeeMappings, legacyFeeMappings. cbv zeta.
  destruct feeBatch as [fb' |]; cbn [Throwing.treasurySplit
    Throwing.stakerSplit bind];
    repeat match goal with
           | |- context [if (?x === ?v) then _ else _] => destruct (x === v)
           | |- context [if negb ?b then _ else _] => destruct (negb b)
           end;
    split; intros H; try discriminate H; reflexivity.
Qed.

End ThrowingProperties.

Section RefreshProperties.
Import ChainFees.
Local Open Scope Z_scope.

(** X3: a vault for which no fulfilled batch holds a call response that
    can be classified keeps exactly what the cache had for it: a failed
    classification, a rejected batch or a vault that was not queried never
    removes or changes an entry. *)
Theorem storeResults_untouched (fb : FeeBatchDetail.t)
    (vaultFees : gmap string VaultFeeBreakdown.t)
    (results : list (settled (list (Z * StrategyCallResponse.t))))
    (vaultId : string) :
  (forall now c, In (now, c) (fulfilledResponses results) -> id c = vaultId ->
     mapStrategyCallsToFeeBreakdown now c fb = None) ->
  storeResults fb vaultFees results !! vaultId = vaultFees !! vaultId.
Proof.
  intros Hfail. rewrite storeResults_flat.
  apply storeResponses_unchanged. exact Hfail.
Qed.

Lemma storeResults_untouched_witness :
  storeResults Samples.split14 {[ "moo-b" := Samples.cached ]} Fixtures.results
    !! "moo-b"
  = Some Samples.cached.
Proof.
  rewrite (storeResults_untouched Samples.split14
             {[ "moo-b" := Samples.cached ]} Fixtures.results "moo-b").
  - vm_compute. reflexivity.
  - intros now c [[= <- <-] | [[= <- <-] | []]] Hid.
    + vm_compute in Hid. discriminate.
    + vm_compute. reflexivity.
Defined.

(** X4: given the chain's fee batch, the entry of a vault after the
    results are stored is the breakdown of its last call response that
    could be classified, with the time of that classification.  Without
    the fee batch a response whose classification reads it throws: the loop
    ends there and no later response is stored. *)
Theorem storeResults_stores (feeBatch : option FeeBatchDetail.t)
    (vaultFees : gmap string VaultFeeBreakdown.t)
    (results : list (settled (list (Z * StrategyCallResponse.t))))
    (rs1 rs2 : list (Z * StrategyCallResponse.t)) (now : Z)
    (c : StrategyCallResponse.t) :
  fulfilledResponses results = (rs1 ++ (now, c) :: rs2)%list ->
  (forall fb fees,
     feeBatch = Some fb ->
     Throwing.mapStrategyCallsToFeeBreakdown now c feeBatch
     = Completion.Normal (Some fees) ->
     (forall now' c' fees', In (now', c') rs2 -> id c' = id c ->
        Throwing.mapStrategyCallsToFeeBreakdown now' c' feeBatch
        <> Completion.Normal (Some fees')) ->
     Throwing.cache (Throwing.storeResults feeBatch vaultFees results) !! id c
     = Some fees
     /\ VaultFeeBreakdown.lastUpdated fees = now)
  /\ (Throwing.mapStrategyCallsToFeeBreakdown now c feeBatch
      = Completion.TypeError ->
      Throwing.storeResults feeBatch vaultFees results
      = Throwing.Aborted
          (Throwing.cache (Throwing.storeResponses feeBatch vaultFees rs1))).
Proof.
  intros Hrs. split.
  - intros fb fees -> Hc Hlater. rewrite throwing_map_Some in Hc.
    injection Hc as Hc. rewrite throwing_storeResults_Some.
    cbn [Throwing.cache]. split.
    + apply (storeResults_lookup_last fb vaultFees results rs1 rs2 now c
               fees Hrs Hc).
      intros now' c' Hin Hid.
      specialize (Hlater now' c'). rewrite throwing_map_Some in Hlater.
      destruct (mapStrategyCallsToFeeBreakdown now' c' fb) as [fees' |];
        [| reflexivity].
      exfalso. apply (Hlater fees' Hin Hid). reflexivity.
    + apply (classified_lastUpdated now c fb fees Hc).
  - intros Hc. rewrite throwing_storeResults_flat, Hrs.
    apply throwing_storeResponses_abort. exact Hc.
Qed.

Lemma storeResults_stores_witness :
  (Throwing.cache
     (Throwing.storeResults (Some Samples.split14)
        {[ "moo-a" := Samples.cached ]} Fixtures.results) !! "moo-a"
   = Some Fixtures.classifiedFees
   /\ VaultFeeBreakdown.lastUpdated Fixtures.classifiedFees = 1700000000000)
  /\ Throwing.storeResults None {[ "moo-a" := Samples.cached ]}
       Fixtures.results
     = Throwing.Aborted {[ "moo-a" := Samples.cached ]}.
Proof.
  split.
  - apply (proj1 (storeResults_stores (Some Samples.split14)
                    {[ "moo-a" := Samples.cached ]} Fixtures.results
                    [] [ (1700000000001, Fixtures.unclassified) ]
                    1700000000000 Fixtures.classified eq_refl)
             Samples.split14 Fixtures.classifiedFees eq_refl).
    + vm_compute. reflexivity.
    + intros now' c' fees' [[= <- <-] | []] _. vm_compute. discriminate.
  - rewrite (proj2 (storeResults_stores None
                      {[ "moo-a" := Samples.cached ]} Fixtures.results
                      [] [ (1700000000001, Fixtures.unclassified) ]
                      1700000000000 Fixtures.classified eq_refl)).
    + reflexivity.
    + vm_compute. reflexivity.
Defined.

(** X5: storing results never evicts a vault from the cache. *)
Theorem storeResults_never_evicts (fb : FeeBatchDetail.t)
    (vaultFees : gmap string VaultFeeBreakdown.t)
    (results : list (settled (list (Z * StrategyCallResponse.t)))) :
  dom vaultFees ⊆ dom (storeResults fb vaultFees results).
Proof.
  intros vaultId. rewrite !elem_of_dom, storeResults_flat.
  apply storeResponses_keeps.
Qed.

Lemma chainVaults_In (chainName : string) (clock : Vault.t -> Z)
    (vaultFees : gmap string VaultFeeBreakdown.t) (vaults : list Vault.t)
    (v : Vault.t) :
  In v (Refresh.chainVaults chainName clock vaultFees vaults)
  <-> In v vaults /\ Vault.chain v = chainName
      /\ Refresh.isStale (clock v) vaultFees v = true.
Proof.
  unfold Refresh.chainVaults. rewrite !filter_In, String.eqb_eq. tauto.
Qed.

(** X6: once a vault's breakdown has been stored at time [now], the next
    cycles leave the vault out as long as their clock reads at most
    [now] + 12 hours, and select it again (if it is on the chain) as soon
    as the clock reads more. *)
Theorem refresh_after_expiry_only (fb : FeeBatchDetail.t)
    (vaultFees : gmap string VaultFeeBreakdown.t)
    (results : list (settled (list (Z * StrategyCallResponse.t))))
    (rs1 rs2 : list (Z * StrategyCallResponse.t)) (now : Z)
    (c : StrategyCallResponse.t) (fees : VaultFeeBreakdown.t)
    (chainName : string) (clock : Vault.t -> Z) (vaults : list Vault.t)
    (v : Vault.t) :
  fulfilledResponses results = (rs1 ++ (now, c) :: rs2)%list ->
  mapStrategyCallsToFeeBreakdown now c fb = Some fees ->
  (forall now' c', In (now', c') rs2 -> id c' = id c ->
     mapStrategyCallsToFeeBreakdown now' c' fb = None) ->
  Vault.id v = id c ->
  In v (Refresh.chainVaults chainName clock
          (storeResults fb vaultFees results) vaults)
  <-> In v vaults /\ Vault.chain v = chainName /\ now + 43200000 < clock v.
Proof.
  intros Hrs Hc Hlater Hid.
  pose proof (storeResults_lookup_last fb vaultFees results rs1 rs2 now c
                fees Hrs Hc Hlater) as Hstored.
  destruct (classified_lastUpdated now c fb fees Hc) as [Hnow _].
  rewrite chainVaults_In. unfold Refresh.isStale.
  rewrite Hid, (get_own _ _ _ Hstored), Hnow, Z.ltb_lt.
  unfold Refresh.CACHE_EXPIRY.
  split; intros (Hin & Hchain & Hlt); repeat split; auto; lia.
Qed.

Lemma refresh_after_expiry_only_witness :
  In Fixtures.vaultA
    (Refresh.chainVaults "bsc" (fun _ => 1700043200001)
       (storeResults Samples.split14 ∅ Fixtures.results)
       [ Fixtures.vaultA; Fixtures.vaultB ]).
Proof.
  apply (proj2 (refresh_after_expiry_only Samples.split14 ∅ Fixtures.results
                  [] [ (1700000000001, Fixtures.unclassified) ]
                  1700000000000 Fixtures.classified Fixtures.classifiedFees
                  "bsc" (fun _ => 1700043200001)
                  [ Fixtures.vaultA; Fixtures.vaultB ] Fixtures.vaultA
                  eq_refl eq_refl
                  ltac:(intros now' c' [[= <- <-] | []] _; reflexivity)
                  eq_refl)).
  split; [left; reflexivity |]. split; [reflexivity | reflexivity].
Defined.

(** X7: a vault of the chain that has no cached breakdown, whose id is
    not a property name of [Object.prototype] and whose call responses
    could not be classified, is selected again by the next cycle, whatever
    the clock reads and whether or not the chain has a fee batch.  (A vault
    without a breakdown whose id does name such a property is never
    selected.)  No call response is for the id "__proto__", the one key
    whose assignment would change the cache object's prototype. *)
Theorem refresh_retries_unclassified (feeBatch : option FeeBatchDetail.t)
    (vaultFees : gmap string VaultFeeBreakdown.t)
    (results : list (settled (list (Z * StrategyCallResponse.t))))
    (chainName : string) (clock : Vault.t -> Z) (vaults : list Vault.t)
    (v : Vault.t) :
  vaultFees !! Vault.id v = None ->
  (forall now c, In (now, c) (fulfilledResponses results) ->
     id c <> "__proto__") ->
  (forall now c fees, In (now, c) (fulfilledResponses results) ->
     id c = Vault.id v ->
     Throwing.mapStrategyCallsToFeeBreakdown now c feeBatch
     <> Completion.Normal (Some fees)) ->
  (~ In (Vault.id v) JsObject.inherited ->
   In v vaults ->
   Vault.chain v = chainName ->
   In v (Refresh.chainVaults chainName clock
           (Throwing.cache (Throwing.storeResults feeBatch vaultFees results))
           vaults))
  /\ (In (Vault.id v) JsObject.inherited ->
      ~ In v (Refresh.chainVaults chainName clock
                (Throwing.cache
                   (Throwing.storeResults feeBatch vaultFees results))
                vaults)).
Proof.
  intros Hnone _ Hfail.
  assert (Hstill : Throwing.cache
                     (Throwing.storeResults feeBatch vaultFees results)
                     !! Vault.id v = None).
  { rewrite throwing_storeResults_flat,
      throwing_storeResponses_unchanged by exact Hfail.
    exact Hnone. }
  split.
  - intros Hname Hin Hchain. apply chainVaults_In.
    split; [exact Hin |]. split; [exact Hchain |].
    unfold Refresh.isStale. rewrite (get_missing _ _ Hstill Hname).
    reflexivity.
  - intros Hname Hsel. apply chainVaults_In in Hsel as (_ & _ & Hstale).
    unfold Refresh.isStale in Hstale.
    rewrite (get_inherited _ _ Hstill Hname) in Hstale. discriminate.
Qed.

Lemma refresh_retries_unclassified_witness :
  In Fixtures.vaultB
    (Refresh.chainVaults "bsc" (fun _ => 1700000000002)
       (Throwing.cache
          (Throwing.storeResults (Some Samples.split14) ∅ Fixtures.results))
       [ Fixtures.vaultA; Fixtures.vaultB ]).
Proof.
  refine (proj1 (refresh_retries_unclassified (Some Samples.split14) ∅
                   Fixtures.results "bsc" (fun _ => 1700000000002)
                   [ Fixtures.vaultA; Fixtures.vaultB ] Fixtures.vaultB
                   _ _ _) _ _ _).
  - vm_compute. reflexivity.
  - intros now c [[= <- <-] | [[= <- <-] | []]]; vm_compute; discriminate.
  - intros now c fees [[= <- <-] | [[= <- <-] | []]] Hid.
    + vm_compute in Hid. discriminate.
    + vm_compute. discriminate.
  - cbn. intuition discriminate.
  - right. left. reflexivity.
  - reflexivity.
Defined.

(** X8: given the chain's fee batch, after the results are stored
    [getTotalPerformanceFeeForVault] returns the total of the vault's last
    classified call response.  For a vault that has no cached breakdown,
    whose id is not a property name of [Object.prototype] and whose call
    responses could not be classified, it still returns the default 0.095,
    with or without a fee batch (no call response being for the id
    "__proto__"). *)
Theorem total_after_refresh (feeBatch : option FeeBatchDetail.t)
    (vaultFees : gmap string VaultFeeBreakdown.t)
    (results : list (settled (list (Z * StrategyCallResponse.t)))) :
  (forall fb rs1 rs2 now c pf,
     feeBatch = Some fb ->
     fulfilledResponses results = (rs1 ++ (now, c) :: rs2)%list ->
     performanceFeesFromCalls c fb = Some pf ->
     (forall now' c' fees', In (now', c') rs2 -> id c' = id c ->
        Throwing.mapStrategyCallsToFeeBreakdown now' c' feeBatch
        <> Completion.Normal (Some fees')) ->
     getTotalPerformanceFeeForVault
       (Throwing.cache (Throwing.storeResults feeBatch vaultFees results))
       (id c)
     = Completion.Normal (PerformanceFee.total pf))
  /\ (forall vaultId,
        vaultFees !! vaultId = None ->
        ~ In vaultId JsObject.inherited ->
        (forall now c, In (now, c) (fulfilledResponses results) ->
           id c <> "__proto__") ->
        (forall now c fees, In (now, c) (fulfilledResponses results) ->
           id c = vaultId ->
           Throwing.mapStrategyCallsToFeeBreakdown now c feeBatch
           <> Completion.Normal (Some fees)) ->
        getTotalPerformanceFeeForVault
          (Throwing.cache (Throwing.storeResults feeBatch vaultFees results))
          vaultId
        = Completion.Normal 0.095%float).
Proof.
  split.
  - intros fb rs1 rs2 now c pf -> Hrs Hpf Hlater.
    destruct (withdrawalFeeFromCalls_defined c) as [w Hw].
    rewrite throwing_storeResults_Some. cbn [Throwing.cache].
    unfold getTotalPerformanceFeeForVault.
    assert (Hstored :
              storeResults fb vaultFees results !! id c
              = Some {| VaultFeeBreakdown.performance := pf;
                        VaultFeeBreakdown.withdraw := w;
                        VaultFeeBreakdown.deposit := depositFeeFromCalls c;
                        VaultFeeBreakdown.lastUpdated := now |}).
    { apply (storeResults_lookup_last fb vaultFees results rs1 rs2 now c _
               Hrs).
      - unfold mapStrategyCallsToFeeBreakdown. rewrite Hw, Hpf. reflexivity.
      - intros now' c' Hin Hid.
        specialize (Hlater now' c'). rewrite throwing_map_Some in Hlater.
        destruct (mapStrategyCallsToFeeBreakdown now' c' fb) as [fees' |];
          [| reflexivity].
        exfalso. apply (Hlater fees' Hin Hid). reflexivity. }
    rewrite (get_own _ _ _ Hstored). reflexivity.
  - intros vaultId Hnone Hname _ Hfail.
    unfold getTotalPerformanceFeeForVault.
    rewrite get_missing; [reflexivity | | exact Hname].
    rewrite throwing_storeResults_flat,
      throwing_storeResponses_unchanged by exact Hfail.
    exact Hnone.
Qed.

Lemma total_after_refresh_witness :
  getTotalPerformanceFeeForVault
    (Throwing.cache
       (Throwing.storeResults (Some Samples.split14) ∅ Fixtures.results))
    "moo-a"
  = Completion.Normal 0.045%float
  /\ getTotalPerformanceFeeForVault
       (Throwing.cache
          (Throwing.storeResults (Some Samples.split14) ∅ Fixtures.results))
       "moo-b"
     = Completion.Normal 0.095%float.
Proof.
  split.
  - apply (proj1 (total_after_refresh (Some Samples.split14) ∅
                    Fixtures.results)
             Samples.split14 [] [ (1700000000001, Fixtures.unclassified) ]
             1700000000000 Fixtures.classified
             (VaultFeeBreakdown.performance Fixtures.classifiedFees)
             eq_refl eq_refl eq_refl).
    intros now' c' fees' [[= <- <-] | []] _. vm_compute. discriminate.
  - apply (proj2 (total_after_refresh (Some Samples.split14) ∅
                    Fixtures.results)).
    + vm_compute. reflexivity.
    + cbn. intuition discriminate.
    + intros now c [[= <- <-] | [[= <- <-] | []]]; vm_compute; discriminate.
    + intros now c fees [[= <- <-] | [[= <- <-] | []]] Hid.
      * vm_compute in Hid. discriminate.
      * vm_compute. discriminate.
Defined.

End RefreshProperties.

Section RegistryLoop.
Local Open Scope float_scope.
Import FeeBatches.

Lemma updateFeeBatch_lookup_ne zksync (fb : gmap Z FeeBatchDetail.t)
    (chainId c : Z) (addr : string) (res : callResult) :
  chainId <> c ->
  updateFeeBatch zksync fb chainId addr res !! c = fb !! c.
Proof.
  intros Hne. unfold updateFeeBatch.
  destruct (truthy _); [apply lookup_insert_ne; exact Hne | reflexivity].
Qed.

Lemma updateFeeBatch_lookup_same zksync (fb fb' : gmap Z FeeBatchDetail.t)
    (c : Z) (addr : string) (res : callResult) :
  fb' !! c = fb !! c ->
  updateFeeBatch zksync fb' c addr res !! c
  = updateFeeBatch zksync fb c addr res !! c.
Proof.
  intros Hsame. unfold updateFeeBatch.
  destruct (truthy _); [rewrite !lookup_insert_eq; reflexivity | exact Hsame].
Qed.

Lemma updateFeeBatches_not_listed zksync
    (book : list (Z * string * callResult)) (fb : gmap Z FeeBatchDetail.t)
    (c : Z) :
  ~ In c (map (fun entry => fst (fst entry)) book) ->
  updateFeeBatches zksync book fb !! c = fb !! c.
Proof.
  unfold updateFeeBatches. revert fb.
  induction book as [| [[chainId addr] res] book IH]; intros fb Hnot;
    [reflexivity |].
  cbn [fold_left]. cbn in Hnot. rewrite IH by tauto.
  apply updateFeeBatch_lookup_ne. tauto.
Qed.

Lemma updateFeeBatches_keeps zksync
    (book : list (Z * string * callResult)) (fb : gmap Z FeeBatchDetail.t)
    (c : Z) :
  is_Some (fb !! c) -> is_Some (updateFeeBatches zksync book fb !! c).
Proof.
  unfold updateFeeBatches. revert fb.
  induction book as [| [[chainId addr] res] book IH]; intros fb Hin;
    [exact Hin |].
  cbn [fold_left]. apply IH. unfold updateFeeBatch.
  destruct (truthy _); [| exact Hin].
  rewrite lookup_insert. case_decide; eauto.
Qed.

(** X9: when the address book lists every chain once, the entry of a
    listed chain after [updateFeeBatches] is decided by that chain's own
    [treasuryFee] call alone, whatever happened on the other chains; a
    numerator read from the contract is always stored, as the pair
    n/1000 and 1 - n/1000 under the chain's fee-batch address. *)
Theorem updateFeeBatches_own_call zksync
    (book : list (Z * string * callResult)) (fb : gmap Z FeeBatchDetail.t)
    (c : Z) (addr : string) (res : callResult) :
  List.NoDup (map (fun entry => fst (fst entry)) book) ->
  In (c, addr, res) book ->
  updateFeeBatches zksync book fb !! c
  = updateFeeBatch zksync fb c addr res !! c
  /\ (forall n, res = Resolved n ->
        updateFeeBatches zksync book fb !! c
        = Some {| FeeBatchDetail.address := addr;
                  FeeBatchDetail.treasurySplit := BigNumber.toNumber n / 1000;
                  FeeBatchDetail.stakerSplit :=
                    1 - BigNumber.toNumber n / 1000 |}).
Proof.
  intros Hnodup Hin.
  assert (Hown : updateFeeBatches zksync book fb !! c
                 = updateFeeBatch zksync fb c addr res !! c).
  { revert fb. induction book as [| [[chainId addr'] res'] book IH];
      intros fb; [destruct Hin |].
    cbn in Hnodup. apply NoDup_cons_iff in Hnodup as [Hfresh Hnodup].
    change (updateFeeBatches zksync ((chainId, addr', res') :: book) fb)
      with (updateFeeBatches zksync book
              (updateFeeBatch zksync fb chainId addr' res')).
    destruct Hin as [[= -> -> ->] | Hin].
    - apply updateFeeBatches_not_listed. exact Hfresh.
    - rewrite (IH Hnodup Hin). apply updateFeeBatch_lookup_same.
      apply updateFeeBatch_lookup_ne. intros ->. apply Hfresh.
      apply (in_map (fun entry => fst (fst entry)) _ _ Hin). }
  split; [exact Hown |].
  intros n ->. rewrite Hown. apply lookup_insert_eq.
Qed.

Lemma updateFeeBatches_own_call_witness :
  updateFeeBatches 324 Fixtures.book ∅ !! 56%Z
  = Some {| FeeBatchDetail.address := "0xfeebatch56";
            FeeBatchDetail.treasurySplit := 0.36;
            FeeBatchDetail.stakerSplit := 0.64 |}.
Proof.
  apply (proj2 (updateFeeBatches_own_call 324 Fixtures.book ∅ 56
                  "0xfeebatch56" (Resolved 360)
                  ltac:(repeat constructor; cbn; intuition discriminate)
                  (or_introl eq_refl))
           360%N eq_refl).
Defined.

(** X10: [updateFeeBatches] never removes a chain from the registry, and
    it leaves the entry of every chain that the address book does not list
    as it was. *)
Theorem updateFeeBatches_preserves zksync
    (book : list (Z * string * callResult)) (fb : gmap Z FeeBatchDetail.t) :
  dom fb ⊆ dom (updateFeeBatches zksync book fb)
  /\ forall c, ~ In c (map (fun entry => fst (fst entry)) book) ->
       updateFeeBatches zksync book fb !! c = fb !! c.
Proof.
  split.
  - intros c. rewrite !elem_of_dom. apply updateFeeBatches_keeps.
  - intros c. apply updateFeeBatches_not_listed.
Qed.

Lemma updateFeeBatches_preserves_witness :
  updateFeeBatches 324 Fixtures.book {[ 137%Z := Samples.split14 ]} !! 137%Z
  = Some Samples.split14.
Proof.
  rewrite (proj2 (updateFeeBatches_preserves 324 Fixtures.book
                    {[ 137%Z := Samples.split14 ]}) 137%Z).
  - reflexivity.
  - cbn. intuition discriminate.
Defined.

End RegistryLoop.

Section GenerationProperties.
Local Open Scope float_scope.
Import Js.

(** X11: classification returns no breakdown exactly when the probe is
    of the legacy generation and the tests of all eight legacy branches
    fail, whether or not the chain has a fee batch.  Given the chain's fee
    batch nothing throws, and a probe answered by either getter or of a
    "-maxi" vault always yields a breakdown; without the fee batch a probe
    answered by a getter throws. *)
Theorem classification_fails_iff (now : Z) (c : StrategyCallResponse.t)
    (feeBatch : option FeeBatchDetail.t) (fb : FeeBatchDetail.t) :
  (Throwing.mapStrategyCallsToFeeBreakdown now c feeBatch
   = Completion.Normal None
   <-> isLegacy c /\ Forall (fun b => fst b = false) (Legacy.branches c fb))
  /\ (feeBatch = Some fb ->
      Throwing.mapStrategyCallsToFeeBreakdown now c feeBatch
      = Completion.Normal (mapStrategyCallsToFeeBreakdown now c fb)
      /\ (~ isLegacy c ->
          exists fees,
            Throwing.mapStrategyCallsToFeeBreakdown now c feeBatch
            = Completion.Normal (Some fees)))
  /\ (feeBatch = None ->
      is_Some (allFees c) \/ is_Some (breakdown c) ->
      Throwing.mapStrategyCallsToFeeBreakdown now c feeBatch
      = Completion.TypeError).
Proof.
  destruct (withdrawalFeeFromCalls_defined c) as [w Hw].
  split; [| split].
  - unfold Throwing.mapStrategyCallsToFeeBreakdown,
      Throwing.performanceFeesFromCalls, isLegacy.
    rewrite Hw, <- firstMatch_None, <- legacyFeeMappings_firstMatch,
      <- (throwing_legacy_none c feeBatch fb).
    destruct (allFees c) as [fees |].
    { split; [| intros [[? _] _]; discriminate].
      destruct feeBatch; discriminate. }
    destruct (breakdown c) as [fees |].
    { split; [| intros [[_ [? _]] _]; discriminate].
      destruct feeBatch; discriminate. }
    destruct (includes (id c) "-maxi").
    { split; [discriminate | intros [[_ [_ ?]] _]; discriminate]. }
    destruct (Throwing.legacyFeeMappings c feeBatch) as [[pf |] |].
    + split; [discriminate | intros [_ ?]; discriminate].
    + split; [intros _ | reflexivity]. repeat split.
    + split; [discriminate | intros [_ ?]; discriminate].
  - intros ->. split; [apply throwing_map_Some |].
    intros Hnot. rewrite throwing_map_Some.
    unfold mapStrategyCallsToFeeBreakdown, performanceFeesFromCalls.
    rewrite Hw.
    destruct (allFees c) as [fees |] eqn:Ha; [eauto |].
    destruct (breakdown c) as [fees |] eqn:Hb; [eauto |].
    destruct (includes (id c) "-maxi") eqn:Hid; [eauto |].
    exfalso. apply Hnot. repeat split; assumption.
  - intros -> Hgetter.
    unfold Throwing.mapStrategyCallsToFeeBreakdown,
      Throwing.performanceFeesFromCalls.
    destruct (allFees c) as [fees |]; [reflexivity |].
    destruct (breakdown c) as [fees |]; [reflexivity |].
    destruct Hgetter as [[? ?] | [? ?]]; discriminate.
Qed.

Lemma classification_fails_iff_witness :
  (exists fees,
     Throwing.mapStrategyCallsToFeeBreakdown 0 Fixtures.viaBreakdown
       (Some Samples.split14)
     = Completion.Normal (Some fees))
  /\ Throwing.mapStrategyCallsToFeeBreakdown 0 Fixtures.viaBreakdown None
     = Completion.TypeError.
Proof.
  split.
  - apply (proj1 (proj2 (classification_fails_iff 0 Fixtures.viaBreakdown
                           (Some Samples.split14) Samples.split14))
             eq_refl).
    intros (_ & Hb & _). discriminate Hb.
  - apply (proj2 (proj2 (classification_fails_iff 0 Fixtures.viaBreakdown
                           None Samples.split14))
             eq_refl).
    right. eexists. reflexivity.
Defined.

(** X12: when the aggregate getter responded, the breakdown is made from
    its response alone: the performance fee from its performance part, the
    withdraw and deposit fees from its values over 10000.  The individually
    named accessors, the breakdown getter, the pause flag and the vault id
    play no part. *)
Theorem aggregate_decides_everything (now : Z) (c : StrategyCallResponse.t)
    (fb : FeeBatchDetail.t) (fees : AllFees.t) :
  allFees c = Some fees ->
  mapStrategyCallsToFeeBreakdown now c fb
  = Some {| VaultFeeBreakdown.performance :=
              performanceFromGetFees (AllFees.performance fees) fb;
            VaultFeeBreakdown.withdraw :=
              BigNumber.toNumber (AllFees.withdraw fees) / 10000;
            VaultFeeBreakdown.deposit :=
              Some (BigNumber.toNumber (AllFees.deposit fees) / 10000);
            VaultFeeBreakdown.lastUpdated := now |}.
Proof.
  intros Hfees.
  unfold mapStrategyCallsToFeeBreakdown, withdrawalFeeFromCalls,
    performanceFeesFromCalls, depositFeeFromCalls.
  rewrite Hfees. reflexivity.
Qed.

Lemma aggregate_decides_everything_witness :
  mapStrategyCallsToFeeBreakdown 0
    (Samples.aggregate "avax-bifi-maxi" Samples.avaxMaxi Samples.fees95)
    Samples.split14
  = Some {| VaultFeeBreakdown.performance :=
              performanceFromGetFees (AllFees.performance Samples.fees95)
                Samples.split14;
            VaultFeeBreakdown.withdraw := 0.001;
            VaultFeeBreakdown.deposit := Some 0.01;
            VaultFeeBreakdown.lastUpdated := 0 |}.
Proof.
  apply (aggregate_decides_everything 0 _ Samples.split14 Samples.fees95).
  reflexivity.
Defined.

(** X13: when only the breakdown getter responded and the chain has its
    fee batch, the probe is always classified: the performance fee comes
    from the getter's response, the deposit fee is absent, and the withdraw
    fee is the one derived from the individually named accessors.  Without
    the fee batch the classification of such a probe throws. *)
Theorem breakdown_getter_classifies (now : Z) (c : StrategyCallResponse.t)
    (feeBatch : option FeeBatchDetail.t) (fees : PerformanceFeeCallResponse.t) :
  allFees c = None ->
  breakdown c = Some fees ->
  (forall fb,
     feeBatch = Some fb ->
     exists w,
       withdrawalFeeFromCalls c = Some w
       /\ Throwing.mapStrategyCallsToFeeBreakdown now c feeBatch
          = Completion.Normal
              (Some {| VaultFeeBreakdown.performance :=
                         performanceFromGetFees fees fb;
                       VaultFeeBreakdown.withdraw := w;
                       VaultFeeBreakdown.deposit := None;
                       VaultFeeBreakdown.lastUpdated := now |}))
  /\ (feeBatch = None ->
      Throwing.mapStrategyCallsToFeeBreakdown now c feeBatch
      = Completion.TypeError).
Proof.
  intros Hall Hbreak.
  destruct (withdrawalFeeFromCalls_defined c) as [w Hw].
  unfold Throwing.mapStrategyCallsToFeeBreakdown,
    Throwing.performanceFeesFromCalls, depositFeeFromCalls.
  rewrite Hw, Hall, Hbreak. split.
  - intros fb ->. exists w. split; reflexivity.
  - intros ->. reflexivity.
Qed.

Lemma breakdown_getter_classifies_witness :
  Throwing.mapStrategyCallsToFeeBreakdown 0 Fixtures.viaBreakdown
    (Some Samples.split14)
  = Completion.Normal
      (Some {| VaultFeeBreakdown.performance :=
                 performanceFromGetFees (AllFees.performance Samples.fees95)
                   Samples.split14;
               VaultFeeBreakdown.withdraw := 0.001;
               VaultFeeBreakdown.deposit := None;
               VaultFeeBreakdown.lastUpdated := 0 |})
  /\ Throwing.mapStrategyCallsToFeeBreakdown 0 Fixtures.viaBreakdown None
     = Completion.TypeError.
Proof.
  destruct (breakdown_getter_classifies 0 Fixtures.viaBreakdown
              (Some Samples.split14) (AllFees.performance Samples.fees95)
              eq_refl eq_refl) as [Hsome _].
  destruct (breakdown_getter_classifies 0 Fixtures.viaBreakdown
              None (AllFees.performance Samples.fees95)
              eq_refl eq_refl) as [_ Hnone].
  split; [| exact (Hnone eq_refl)].
  destruct (Hsome Samples.split14 eq_refl) as (w & Hw & ->).
  injection Hw as <-. reflexivity.
Defined.

(** X14: a "-maxi" vault without getter responses is always classified,
    without any use of the chain's fee batch, and never gets a strategist
    or treasury share; unless its strategy is the old bifi maxi, it gets no
    stakers share either and its total is its call share. *)
Theorem maxi_shares (c : StrategyCallResponse.t) (fb : FeeBatchDetail.t) :
  allFees c = None ->
  breakdown c = None ->
  Js.includes (id c) "-maxi" = true ->
  exists pf,
    (forall fb', performanceFeesFromCalls c fb' = Some pf)
    /\ PerformanceFee.strategist pf = 0
    /\ PerformanceFee.treasury pf = 0
    /\ (toLowerCase (strategy c)
        <> toLowerCase "0x87056F5E8Dce0fD71605E6E291C6a3B53cbc3818" ->
        PerformanceFee.stakers pf = 0
        /\ PerformanceFee.total pf = PerformanceFee.call pf).
Proof.
  intros Ha Hb Hid. exists (performanceForMaxi c).
  split.
  { intros fb'. unfold performanceFeesFromCalls. rewrite Ha, Hb, Hid.
    reflexivity. }
  unfold performanceForMaxi. cbv zeta.
  repeat match goal with
         | |- context [if array_includes ?l ?a then _ else _] =>
             destruct (array_includes l a)
         | |- context [if String.eqb ?a ?b then _ else _] =>
             destruct (String.eqb_spec a b)
         end;
    cbn [PerformanceFee.strategist PerformanceFee.treasury
         PerformanceFee.stakers PerformanceFee.total PerformanceFee.call];
    repeat split; try reflexivity;
    match goal with
    | H : ?x <> ?y, e : ?y = ?x |- _ => exfalso; apply H; symmetry; exact e
    end.
Qed.

Lemma maxi_shares_witness :
  exists pf,
    performanceFeesFromCalls Samples.avaxMaxiProbe Samples.split14 = Some pf
    /\ PerformanceFee.strategist pf = 0
    /\ PerformanceFee.treasury pf = 0.
Proof.
  destruct (maxi_shares Samples.avaxMaxiProbe Samples.split14
              eq_refl eq_refl eq_refl) as (pf & Hpf & Hs & Ht & _).
  exists pf. split; [apply Hpf | split; assumption].
Defined.

(** X15: a "-maxi" vault whose strategy address is on none of the lists
    is classified by its call fee alone, taken over the strategy's maximum
    call fee, or over 1000 when no maximum responded. *)
Theorem maxi_fallback (c : StrategyCallResponse.t) (fb : FeeBatchDetail.t) :
  allFees c = None ->
  breakdown c = None ->
  Js.includes (id c) "-maxi" = true ->
  ~ In (toLowerCase (strategy c))
      (map toLowerCase
         [ "0x436D5127F16fAC1F021733dda090b5E6DE30b3bB";
           "0xa9E6E271b27b20F65394914f8784B3B860dBd259";
           "0x24AAaB9DA14308bAf9d670e2a37369FE8Cb5Fe36";
           "0x22b3d90BDdC3Ad5F2948bE3914255C64Ebc8c9b3";
           "0xbCF1e02ac0c45729dC85F290C4A6AB35c4801cB1";
           "0xb25eB9105549627050AAB3A1c909fBD454014beA";
           "0xca077eEC87e2621F5B09AFE47C42BAF88c6Af18c";
           "0x87056F5E8Dce0fD71605E6E291C6a3B53cbc3818" ]) ->
  performanceFeesFromCalls c fb
  = Some {| PerformanceFee.total :=
              Legacy.callFee c / (maxCallFee c ?? Num 1000);
            PerformanceFee.call :=
              Legacy.callFee c / (maxCallFee c ?? Num 1000);
            PerformanceFee.strategist := 0;
            PerformanceFee.treasury := 0;
            PerformanceFee.stakers := 0 |}
  /\ (maxCallFee c = undefined ->
      performanceFeesFromCalls c fb
      = Some {| PerformanceFee.total := Legacy.callFee c / 1000;
                PerformanceFee.call := Legacy.callFee c / 1000;
                PerformanceFee.strategist := 0;
                PerformanceFee.treasury := 0;
                PerformanceFee.stakers := 0 |}).
Proof.
  intros Ha Hb Hid Hnot.
  assert (Hpf : performanceFeesFromCalls c fb
                = Some {| PerformanceFee.total :=
                            Legacy.callFee c / (maxCallFee c ?? Num 1000);
                          PerformanceFee.call :=
                            Legacy.callFee c / (maxCallFee c ?? Num 1000);
                          PerformanceFee.strategist := 0;
                          PerformanceFee.treasury := 0;
                          PerformanceFee.stakers := 0 |}).
  { unfold performanceFeesFromCalls. rewrite Ha, Hb, Hid.
    unfold performanceForMaxi. cbv zeta.
    cbn [map In] in Hnot.
    assert (Hne : forall a,
               toLowerCase a <> toLowerCase (strategy c) ->
               String.eqb (toLowerCase (strategy c)) (toLowerCase a) = false).
    { intros a Ha'. apply String.eqb_neq. congruence. }
    assert (Hne' : forall a,
               toLowerCase a <> toLowerCase (strategy c) ->
               String.eqb (toLowerCase a) (toLowerCase (strategy c)) = false).
    { intros a Ha'. apply String.eqb_neq. exact Ha'. }
    unfold array_includes. cbn [map existsb].
    rewrite !Hne by tauto. cbn [orb].
    rewrite !Hne' by tauto.
    reflexivity. }
  split; [exact Hpf |].
  intros Hmax. rewrite Hpf, Hmax. reflexivity.
Qed.

Lemma maxi_fallback_witness :
  performanceFeesFromCalls Fixtures.unlistedMaxi Samples.split14
  = Some {| PerformanceFee.total := 0.005;
            PerformanceFee.call := 0.005;
            PerformanceFee.strategist := 0;
            PerformanceFee.treasury := 0;
            PerformanceFee.stakers := 0 |}.
Proof.
  apply (proj2 (maxi_fallback Fixtures.unlistedMaxi Samples.split14
                  eq_refl eq_refl eq_refl
                  ltac:(cbn; intuition discriminate))).
  reflexivity.
Defined.

End GenerationProperties.

Section LegacyEdgeCases.
Local Open Scope float_scope.
Import Js.

(** X16: the eighth branch of [legacyFeeMappings] (callFee + fee ===
    maxFee) is never taken: its test is the third branch's test with the
    operands of the sum swapped, so the function is unchanged when the
    branch is removed. *)
Theorem legacy_eighth_branch_dead (c : StrategyCallResponse.t)
    (fb : FeeBatchDetail.t) :
  legacyFeeMappings c fb
  = Legacy.firstMatch (removelast (Legacy.branches c fb)).
Proof.
  rewrite legacyFeeMappings_firstMatch.
  unfold Legacy.firstMatch, Legacy.branches, Legacy.branchesWith.
  cbn [removelast find fst].
  rewrite (float_add_comm (Legacy.callFee c) (fee c)).
  repeat match goal with
         | |- context [if (?x === ?v) then _ else _] => destruct (x === v)
         | |- context [if negb ?b then _ else _] => destruct (negb b)
         end;
    reflexivity.
Qed.

(** X17: a legacy probe in which no call-fee accessor responded is never
    classified, whatever the other accessors returned. *)
Theorem legacy_needs_call_fee (now : Z) (c : StrategyCallResponse.t)
    (fb : FeeBatchDetail.t) :
  isLegacy c ->
  Legacy.callFee c = undefined ->
  performanceFeesFromCalls c fb = None
  /\ mapStrategyCallsToFeeBreakdown now c fb = None.
Proof.
  intros Hleg Hcall.
  assert (Hpf : performanceFeesFromCalls c fb = None).
  { rewrite (performanceFeesFromCalls_legacy c fb Hleg),
      legacyFeeMappings_firstMatch.
    apply firstMatch_None.
    unfold Legacy.branches, Legacy.branchesWith. rewrite Hcall.
    cbn [ToNumber].
    repeat (rewrite float_add_nan_l || rewrite float_add_nan_r).
    repeat constructor; cbn [fst]; apply strict_eq_nan. }
  split; [exact Hpf |].
  unfold mapStrategyCallsToFeeBreakdown. rewrite Hpf.
  destruct (withdrawalFeeFromCalls c); reflexivity.
Qed.

Lemma legacy_needs_call_fee_witness :
  mapStrategyCallsToFeeBreakdown 0 Fixtures.noCallFee Samples.split14 = None.
Proof.
  apply (proj2 (legacy_needs_call_fee 0 Fixtures.noCallFee Samples.split14
                  ltac:(repeat split; reflexivity) eq_refl)).
Defined.

(** X18: a legacy probe in which no max-fee accessor responded can only
    be classified by the fourth or fifth branch, and then its call,
    strategist and treasury shares are NaN under the total 0.045. *)
Theorem legacy_without_max_fee (c : StrategyCallResponse.t)
    (fb : FeeBatchDetail.t) (pf : PerformanceFee.t) :
  isLegacy c ->
  Legacy.maxFee c = undefined ->
  performanceFeesFromCalls c fb = Some pf ->
  PerformanceFee.total pf = 0.045
  /\ PerformanceFee.call pf = nan
  /\ PerformanceFee.strategist pf = nan
  /\ PerformanceFee.treasury pf = nan
  /\ (Js.isNaN (Legacy.strategistFee c + Legacy.callFee c + beefy c) = false
      \/ Js.isNaN (Legacy.strategistFee c + Legacy.callFee c + treasury c)
         = false).
Proof.
  intros Hleg Hmax.
  rewrite (performanceFeesFromCalls_legacy c fb Hleg),
    legacyFeeMappings_firstMatch.
  unfold Legacy.firstMatch, Legacy.branches, Legacy.branchesWith,
    Legacy.beefyResult, Legacy.treasuryResult, Legacy.feeResult.
  rewrite Hmax. cbn [strict_eq ToNumber find fst].
  destruct (Js.isNaN (Legacy.strategistFee c + Legacy.callFee c + beefy c));
    destruct (Js.isNaN (Legacy.strategistFee c + Legacy.callFee c + treasury c));
    cbn [negb]; try discriminate;
    intros [= <-];
    cbn [PerformanceFee.total PerformanceFee.call PerformanceFee.strategist
         PerformanceFee.treasury];
    rewrite !float_div_nan_r; auto 10.
Qed.

Lemma legacy_without_max_fee_witness :
  exists pf,
    performanceFeesFromCalls Fixtures.noMaxFee Samples.split14 = Some pf
    /\ PerformanceFee.total pf = 0.045
    /\ PerformanceFee.call pf = nan.
Proof.
  exists {| PerformanceFee.total := 0.045;
            PerformanceFee.call := nan;
            PerformanceFee.strategist := nan;
            PerformanceFee.treasury := nan;
            PerformanceFee.stakers := nan |}.
  split; [reflexivity |].
  destruct (legacy_without_max_fee Fixtures.noMaxFee Samples.split14 _
              ltac:(repeat split; reflexivity) eq_refl eq_refl)
    as (Ht & Hc & _).
  split; assumption.
Defined.

(** X19: when a getter reports beefy, call and strategist components that
    are all zero, the call, strategist, treasury and stakers shares of the
    breakdown are NaN (0/0), whatever the reported total and the chain's
    split. *)
Theorem getFees_zero_components (fees : PerformanceFeeCallResponse.t)
    (fb : FeeBatchDetail.t) :
  PerformanceFeeCallResponse.beefy fees = 0%N ->
  PerformanceFeeCallResponse.call fees = 0%N ->
  PerformanceFeeCallResponse.strategist fees = 0%N ->
  PerformanceFee.call (performanceFromGetFees fees fb) = nan
  /\ PerformanceFee.strategist (performanceFromGetFees fees fb) = nan
  /\ PerformanceFee.treasury (performanceFromGetFees fees fb) = nan
  /\ PerformanceFee.stakers (performanceFromGetFees fees fb) = nan.
Proof.
  intros Hb Hc Hs. unfold performanceFromGetFees.
  rewrite Hb, Hc, Hs.
  cbn [PerformanceFee.call PerformanceFee.strategist PerformanceFee.treasury
       PerformanceFee.stakers].
  change (BigNumber.div1e9_toNumber 0%N / 1e9) with 0.
  change (0 + 0 + 0) with 0.
  rewrite !float_mul0_div0, !float_mul_nan_r. repeat split.
Qed.

Lemma getFees_zero_components_witness :
  PerformanceFee.call
    (performanceFromGetFees Fixtures.zeroComponents Samples.split14) = nan
  /\ PerformanceFee.total
       (performanceFromGetFees Fixtures.zeroComponents Samples.split14)
     = 0.095.
Proof.
  split; [| reflexivity].
  apply (getFees_zero_components Fixtures.zeroComponents Samples.split14
           eq_refl eq_refl eq_refl).
Defined.

End LegacyEdgeCases.
